(** * Catalogo front end: artifact submission and post-login redirect

    Shallow embedding of the two event handlers that carry the logic of
    [frontend/src/pages/Catalog/CreateArtifact.jsx] and
    [frontend/src/pages/Login/Login.jsx]:

    - the [modelRequired] effect and the submission gate, payload assembly
      and upload of [CreateArtifact.handleSubmit];
    - the credential post, token storage and redirect of
      [Login.handleSubmit].

    A handler is a computation over the component state and a log of the
    calls it makes to its collaborators ([addAlert], [fetch], [navigate],
    [setToken]).  What the network answers is an input of the handler. *)

From Stdlib Require Import String Ascii List ZArith Bool Lia.
From Stdlib Require Import DecimalString.
Import ListNotations.

Local Open Scope string_scope.
Local Open Scope list_scope.

(** ** JavaScript values and strings *)

Module Js.

(** A browser [File]: what a file picker hands over. *)
Record File : Type := mkFile { file_name : string; file_size : N }.

(** The values that flow through the two components. *)
Inductive jsval : Type :=
| VUndefined
| VNull
| VString (s : string)
| VNumber (n : Z)
| VEmptyObject                (* the literal {} *)
| VFile (f : File).

(** [v instanceof File] *)
Definition instanceof_File (v : jsval) : bool :=
  match v with
  | VFile _ => true
  | _ => false
  end.

Definition file_eqb (f g : File) : bool :=
  String.eqb (file_name f) (file_name g) && N.eqb (file_size f) (file_size g).

Definition jsval_eqb (v w : jsval) : bool :=
  match v, w with
  | VUndefined, VUndefined => true
  | VNull, VNull => true
  | VString s, VString t => String.eqb s t
  | VNumber n, VNumber m => Z.eqb n m
  | VEmptyObject, VEmptyObject => true
  | VFile f, VFile g => file_eqb f g
  | _, _ => false
  end.

(** [String(v)], also what a template literal does to an interpolated
    value.  A number is printed in plain decimal digits, as JavaScript
    prints the integers a double holds exactly. *)
Definition to_string (v : jsval) : string :=
  match v with
  | VUndefined => "undefined"
  | VNull => "null"
  | VString s => s
  | VNumber n => NilZero.string_of_int (Z.to_int n)
  | VEmptyObject => "[object Object]"
  | VFile _ => "[object File]"
  end.

(** [s.includes(sub)] *)
Fixpoint includes (s sub : string) : bool :=
  String.prefix sub s
  || match s with
     | EmptyString => false
     | String _ s' => includes s' sub
     end.

Definition dquote : ascii := ascii_of_nat 34.

(** [s.replace(re, empty)] where [re] matches every double quote, as in
    the token clean-up of the login page. *)
Fixpoint strip_dquotes (s : string) : string :=
  match s with
  | EmptyString => EmptyString
  | String c s' =>
      if Ascii.eqb c dquote then strip_dquotes s'
      else String c (strip_dquotes s')
  end.

(** An [Error] object; only its [message] is ever read. *)
Record js_error : Type := mkError { message : string }.

(** [new Error(m)]: an undefined argument leaves the message empty. *)
Definition new_Error (m : jsval) : js_error :=
  match m with
  | VUndefined => mkError ""
  | _ => mkError (to_string m)
  end.

(** The [TypeError] raised by reading property [p] of [undefined]; the
    wording belongs to the engine. *)
Definition undefined_property_error (p : string) : js_error :=
  mkError ("Cannot read properties of undefined (reading '" ++ p ++ "')").

End Js.
Import Js.

(** ** Collaborators: routes, requests, the effect log *)

Module Dom.

(** A react-router location object.  [pathname] is read through
    [String(...)] by the login page, so it may be missing. *)
Record Location : Type := mkLocation {
  pathname : option string;
  search : string;
  hash : string
}.

(** First argument of [navigate]. *)
Inductive target : Type :=
| ToPath (p : string)
| ToLocation (l : Location).

(** The entries of [API_URLS] the two pages use. *)
Inductive endpoint : Type :=
| ALL_METADATA
| DETAILED_ARTIFACT_upload          (* `${API_URLS.DETAILED_ARTIFACT}/upload` *)
| AUTH
| ADMIN_MAIL.

(** A [FormData] under construction: the [append] calls in order. *)
Definition FormData : Type := list (string * jsval).

Definition append (fd : FormData) (name : string) (value : jsval) : FormData :=
  fd ++ [(name, value)].

Inductive request_body : Type :=
| Multipart (fd : FormData)
| JsonCredentials (username password : string).   (* JSON.stringify(formValues) *)

Record request : Type := mkRequest {
  req_endpoint : endpoint;
  req_method : string;
  req_bearer : option string;        (* Authorization: Bearer <token> *)
  req_content_type : option string;
  req_body : request_body
}.

(** What a handler does to the outside. *)
Inductive effect : Type :=
| AddAlert (msg : jsval)
| Fetch (r : request)
| Navigate (to : target) (replace : bool)
| SetToken (t : string)
| ConsoleLog (label : string) (to : target).

(** What [fetch] and [response.json()] can answer. *)
Inductive json_result (B : Type) : Type :=
| JsonFails (e : js_error)
| JsonBody (b : B).
Arguments JsonFails {B} e.
Arguments JsonBody {B} b.

Record response (B : Type) : Type := mkResponse {
  ok : bool;
  json : json_result B
}.
Arguments mkResponse {B} ok json.
Arguments ok {B} r.
Arguments json {B} r.

Inductive fetch_result (B : Type) : Type :=
| FetchRejects (e : js_error)               (* transport failure *)
| FetchResolves (r : response B).
Arguments FetchRejects {B} e.
Arguments FetchResolves {B} r.

End Dom.
Import Dom.

(** ** The handler monad

    State is the component state [St] together with the effect log.  A
    computation ends normally, by an early [return], or by a throw. *)

Module Handler.

Inductive completion (A : Type) : Type :=
| Normal (a : A)
| Returned
| Thrown (e : js_error).
Arguments Normal {A} a.
Arguments Returned {A}.
Arguments Thrown {A} e.

Definition H (St A : Type) : Type :=
  St * list effect -> completion A * (St * list effect).

Section Ops.
Context {St : Type}.

Definition ret {A} (a : A) : H St A := fun w => (Normal a, w).

Definition bind {A B} (m : H St A) (k : A -> H St B) : H St B :=
  fun w =>
    match m w with
    | (Normal a, w') => k a w'
    | (Returned, w') => (Returned, w')
    | (Thrown e, w') => (Thrown e, w')
    end.

Definition get : H St St := fun w => (Normal (fst w), w).

Definition put (s : St) : H St unit := fun w => (Normal tt, (s, snd w)).

Definition emit (e : effect) : H St unit :=
  fun w => (Normal tt, (fst w, snd w ++ [e])).

Definition return_ {A} : H St A := fun w => (Returned, w).

Definition throw {A} (e : js_error) : H St A := fun w => (Thrown e, w).

(** [try { m } catch (error) { h error }] *)
Definition try_catch {A} (m : H St A) (h : js_error -> H St A) : H St A :=
  fun w =>
    match m w with
    | (Thrown e, w') => h e w'
    | r => r
    end.

(** [await fetch(...)]: the request goes out, then the oracle answers. *)
Definition fetch {B} (r : request) (answer : fetch_result B)
  : H St (response B) :=
  bind (emit (Fetch r))
       (fun _ => match answer with
                 | FetchRejects e => throw e
                 | FetchResolves resp => ret resp
                 end).

(** [response.json()] *)
Definition response_json {B} (resp : response B) : H St B :=
  match json resp with
  | JsonFails e => throw e
  | JsonBody b => ret b
  end.

Definition when (b : bool) (m : H St unit) : H St unit :=
  if b then m else ret tt.

End Ops.

(** Run a handler on a component state with an empty log. *)
Definition run {St A} (m : H St A) (s : St)
  : completion A * (St * list effect) := m (s, []).

Definition outcome {St A} (r : completion A * (St * list effect)) := fst r.
Definition final_state {St A} (r : completion A * (St * list effect)) := fst (snd r).
Definition effects {St A} (r : completion A * (St * list effect)) := snd (snd r).

(** A request went out. *)
Definition attempts_fetch (l : list effect) : Prop :=
  exists r, In (Fetch r) l.

(** [addAlert] was called. *)
Definition surfaces_message (l : list effect) : Prop :=
  exists m, In (AddAlert m) l.

End Handler.
Import Handler.

Declare Scope handler_scope.
Delimit Scope handler_scope with handler.
Notation "x <- m ;; k" := (bind m (fun x => k))
  (at level 61, m at next level, right associativity) : handler_scope.
Notation "m ;; k" := (bind m (fun _ => k))
  (at level 61, right associativity) : handler_scope.

Local Open Scope handler_scope.

(** ** CreateArtifact.jsx *)

Module CreateArtifact.

(** A metadata option as the server lists it. *)
Record MetadataOption : Type := mkOption { id : jsval; value : string }.

(** The [newObjectAttributes] state object. *)
Record Attributes : Type := mkAttributes {
  object : jsval;
  texture : jsval;
  material : jsval;
  thumbnail : jsval;
  images : list jsval;
  description : string;
  shape : MetadataOption;
  culture : MetadataOption;
  tags : list MetadataOption
}.

(** Component state: the draft, the [modelRequired] flag and the bearer
    token read from [useToken].  The option lists and the [loading] and
    [errors] flags only feed the widgets and are left out. *)
Record State : Type := mkState {
  newObjectAttributes : Attributes;
  modelRequired : bool;
  token : string
}.

(** Initial value given to [useState] (lines 35-51). *)
Definition initialAttributes : Attributes :=
  {| object := VEmptyObject;
     texture := VEmptyObject;
     material := VEmptyObject;
     thumbnail := VEmptyObject;
     images := [];
     description := "";
     shape := {| id := VString ""; value := "" |};
     culture := {| id := VString ""; value := "" |};
     tags := [] |}.

Definition initialState (tok : string) : State :=
  {| newObjectAttributes := initialAttributes;
     modelRequired := false;
     token := tok |}.

Definition setModelRequired (b : bool) (s : State) : State :=
  {| newObjectAttributes := newObjectAttributes s;
     modelRequired := b;
     token := token s |}.

Definition setNewObjectAttributes (a : Attributes) (s : State) : State :=
  {| newObjectAttributes := a;
     modelRequired := modelRequired s;
     token := token s |}.

(** The condition the effect tests (lines 66-68). *)
Definition recomputeRequirement (a : Attributes) : bool :=
  instanceof_File (object a)
  || instanceof_File (texture a)
  || instanceof_File (material a).

(** The body of the [modelRequired] effect (lines 65-72). *)
Definition modelRequired_effect (s : State) : State :=
  if recomputeRequirement (newObjectAttributes s)
  then setModelRequired true s
  else setModelRequired false s.

(** The dependency array of the effect (line 73), compared with the value
    of the previous render.  Two distinct objects with equal content count
    as unchanged here, where React would run the effect again; the effect
    being a function of the three slots, the outcome is the same. *)
Definition deps_changed (prev next : Attributes) : bool :=
  negb (jsval_eqb (object prev) (object next)
        && jsval_eqb (texture prev) (texture next)
        && jsval_eqb (material prev) (material next)).

(** The first render: every effect runs once. *)
Definition mount (tok : string) : State := modelRequired_effect (initialState tok).

(** A [name]/[value] pair as [handleInputChange] and the upload buttons
    receive it, with the value typed by the key it goes to. *)
Inductive field : Type :=
| F_object (v : jsval)
| F_texture (v : jsval)
| F_material (v : jsval)
| F_thumbnail (v : jsval)
| F_images (l : list jsval)
| F_description (d : string)
| F_shape (o : MetadataOption)
| F_culture (o : MetadataOption)
| F_tags (l : list MetadataOption).

(** [{ ...newObjectAttributes, [name]: value }] *)
Definition spread_with (a : Attributes) (f : field) : Attributes :=
  match f with
  | F_object v => mkAttributes v (texture a) (material a) (thumbnail a) (images a) (description a) (shape a) (culture a) (tags a)
  | F_texture v => mkAttributes (object a) v (material a) (thumbnail a) (images a) (description a) (shape a) (culture a) (tags a)
  | F_material v => mkAttributes (object a) (texture a) v (thumbnail a) (images a) (description a) (shape a) (culture a) (tags a)
  | F_thumbnail v => mkAttributes (object a) (texture a) (material a) v (images a) (description a) (shape a) (culture a) (tags a)
  | F_images l => mkAttributes (object a) (texture a) (material a) (thumbnail a) l (description a) (shape a) (culture a) (tags a)
  | F_description d => mkAttributes (object a) (texture a) (material a) (thumbnail a) (images a) d (shape a) (culture a) (tags a)
  | F_shape o => mkAttributes (object a) (texture a) (material a) (thumbnail a) (images a) (description a) o (culture a) (tags a)
  | F_culture o => mkAttributes (object a) (texture a) (material a) (thumbnail a) (images a) (description a) (shape a) o (tags a)
  | F_tags l => mkAttributes (object a) (texture a) (material a) (thumbnail a) (images a) (description a) (shape a) (culture a) l
  end.

(** [handleInputChange] (lines 105-107). *)
Definition handleInputChange (f : field) : H State unit :=
  s <- get ;;
  put (setNewObjectAttributes (spread_with (newObjectAttributes s) f) s).

(** The two alerts of the submission gate. *)
Definition IncompleteModelSet : string :=
  "Para subir un objeto 3d, se deben subir los tres archivos requeridos".
Definition NoAssetProvided : string :=
  "Si no se sube un modelo 3d, se deben subir imágenes".

(** [list.forEach(x => formData.append(key, f x))] *)
Definition forEach_append {A} (l : list A) (key : string) (f : A -> jsval)
    (formData : FormData) : FormData :=
  fold_left (fun fd x => append fd key (f x)) l formData.

(** Lines 130-143. *)
Definition assemble (a : Attributes) : FormData :=
  let formData : FormData := [] in
  let formData := append formData "model[new_object]" (object a) in
  let formData := append formData "model[new_texture]" (texture a) in
  let formData := append formData "model[new_material]" (material a) in
  let formData := append formData "new_thumbnail" (thumbnail a) in
  let formData := forEach_append (images a) "new_images" (fun image => image) formData in
  let formData := append formData "description" (VString (description a)) in
  let formData := append formData "id_shape" (id (shape a)) in
  let formData := append formData "id_culture" (id (culture a)) in
  let formData := forEach_append (tags a) "id_tags" (fun tag => id tag) formData in
  formData.

(** The upload endpoint answers [{ data: { id, ... } }] or [{ detail }]. *)
Record artifact : Type := mkArtifact { artifact_id : jsval }.
Record upload_body : Type := mkUploadBody {
  detail : jsval;
  data : option artifact
}.

Definition upload_request (tok : string) (formData : FormData) : request :=
  {| req_endpoint := DETAILED_ARTIFACT_upload;
     req_method := "POST";
     req_bearer := Some tok;
     req_content_type := None;
     req_body := Multipart formData |}.

(** The submission gate (lines 116-128). *)
Definition gate (s : State) : H State unit :=
  let a := newObjectAttributes s in
  if modelRequired s then
    when (negb (instanceof_File (object a))
          || negb (instanceof_File (texture a))
          || negb (instanceof_File (material a)))
      (emit (AddAlert (VString IncompleteModelSet)) ;; return_)
  else
    when (Nat.eqb (length (images a)) 0)
      (emit (AddAlert (VString NoAssetProvided)) ;; return_).

(** What runs once the response is there (lines 151-166): the chain
    [response.json().then(...).catch(...)]. *)
Definition on_response (response : Dom.response upload_body) : H State unit :=
  try_catch
    (data <- response_json response ;;
     when (negb (ok response)) (throw (new_Error (detail data))) ;;
     match CreateArtifact.data data with
     | None => throw (undefined_property_error "id")
     | Some successfully_response =>
         let newArtifactId := artifact_id successfully_response in
         emit (AddAlert (VString "¡Objeto creado con éxito!")) ;;
         emit (Navigate (ToPath ("/catalog/" ++ to_string newArtifactId)) false)
     end)
    (fun error => emit (AddAlert (VString (message error)))).

(** [handleSubmit] (lines 114-167).  A rejected [fetch] skips the [then]
    callback and rejects the awaited promise: nothing encloses it. *)
Definition handleSubmit (answer : fetch_result upload_body) : H State unit :=
  s <- get ;;
  gate s ;;
  let formData := assemble (newObjectAttributes s) in
  response <- fetch (upload_request (token s) formData) answer ;;
  on_response response.

(** *** Events and reachable states *)

(** What the user can do to the form.  [Upload a] stands for an upload
    button calling the [setStateFn] it was given, whatever draft [a] it
    computes. *)
Inductive event : Type :=
| InputChange (f : field)
| Upload (a : Attributes)
| Submit (answer : fetch_result upload_body).

Definition handler_of (ev : event) : H State unit :=
  match ev with
  | InputChange f => handleInputChange f
  | Upload a => s <- get ;; put (setNewObjectAttributes a s)
  | Submit answer => handleSubmit answer
  end.

(** After a handler, React renders and runs the effect when one of its
    dependencies changed. *)
Definition render_effects (prev next : State) : State :=
  if deps_changed (newObjectAttributes prev) (newObjectAttributes next)
  then modelRequired_effect next
  else next.

Definition dispatch (ev : event) (s : State) : State :=
  render_effects s (final_state (run (handler_of ev) s)).

(** The states in which a handler can find the component. *)
Inductive reachable (tok : string) : State -> Prop :=
| reach_mount : reachable tok (mount tok)
| reach_dispatch s ev : reachable tok s -> reachable tok (dispatch ev s).

(** *** Vocabulary of the properties *)

(** A slot holds an actual file. *)
Definition holds_file (v : jsval) : Prop := exists f, v = VFile f.

Definition some_model_part (a : Attributes) : Prop :=
  holds_file (object a) \/ holds_file (texture a) \/ holds_file (material a).

Definition all_model_parts (a : Attributes) : Prop :=
  holds_file (object a) /\ holds_file (texture a) /\ holds_file (material a).

(** The gate lets the submission through. *)
Definition passes_gate (s : State) : Prop :=
  outcome (run (gate s) s) = Normal tt.

(** The values passed to [append] under [name], in order. *)
Definition getAll (name : string) (fd : FormData) : list jsval :=
  map snd (filter (fun e => String.eqb (fst e) name) fd).

(** *** A sample draft: two photographs, three tags, no model *)

Definition sample_images : list jsval :=
  [ VFile (mkFile "frente.png" 4096); VFile (mkFile "base.jpg" 3072) ].

Definition sample_tags : list MetadataOption :=
  [ mkOption (VNumber 7) "ceramica"; mkOption (VNumber 2) "pintado";
    mkOption (VNumber 11) "ritual" ].

Definition sample_attributes : Attributes :=
  {| object := VEmptyObject;
     texture := VEmptyObject;
     material := VEmptyObject;
     thumbnail := VEmptyObject;
     images := sample_images;
     description := "Vasija";
     shape := mkOption (VNumber 3) "botella";
     culture := mkOption (VNumber 5) "diaguita";
     tags := sample_tags |}.

Definition sample_state : State := mkState sample_attributes false "t0k3n".

End CreateArtifact.

(** ** Login.jsx *)

Module Login.

Record FormValues : Type := mkFormValues {
  username : string;
  password : string
}.

Record State : Type := mkState {
  formValues : FormValues;
  adminEmail : string
}.

Definition initialState : State :=
  {| formValues := {| username := ""; password := "" |};
     adminEmail := "" |}.

(** What [location.state?.from] evaluates to: nothing, a path string, or
    a location object. *)
Inductive state_from : Type :=
| NoFrom
| FromPath (p : string)
| FromLocation (l : Location).

(** [location.state?.from || "/"] (line 82): the empty string is falsy. *)
Definition from_or_root (f : state_from) : target :=
  match f with
  | NoFrom => ToPath "/"
  | FromPath p => if String.eqb p "" then ToPath "/" else ToPath p
  | FromLocation l => ToLocation l
  end.

(** [from !== "/"] *)
Definition is_not_root (from : target) : bool :=
  match from with
  | ToPath p => negb (String.eqb p "/")
  | ToLocation _ => true
  end.

(** [from.pathname]: a string has no such property. *)
Definition pathname_of (from : target) : jsval :=
  match from with
  | ToPath _ => VUndefined
  | ToLocation l =>
      match pathname l with
      | Some p => VString p
      | None => VUndefined
      end
  end.

Definition reset_password_segment : string := "/reset-password".

(** The redirect after a successful login (lines 82-88). *)
Definition resolveDestination (f : state_from) : H State unit :=
  let from := from_or_root f in
  emit (ConsoleLog "from" from) ;;
  if is_not_root from
     && includes (to_string (pathname_of from)) reset_password_segment
  then emit (Navigate (ToPath "/") false)
  else emit (Navigate from true).

(** The auth endpoint answers [{ token }] or [{ detail }]. *)
Record auth_body : Type := mkAuthBody {
  detail : jsval;
  token : option string
}.

Definition auth_request (v : FormValues) : request :=
  {| req_endpoint := AUTH;
     req_method := "POST";
     req_bearer := None;
     req_content_type := Some "application/json";
     req_body := JsonCredentials (username v) (password v) |}.

(** The form field a change event comes from. *)
Inductive field : Type :=
| F_username (v : string)
| F_password (v : string).

(** [handleChange] (lines 50-56). *)
Definition handleChange (e : field) : H State unit :=
  s <- get ;;
  let v := formValues s in
  put {| formValues :=
           match e with
           | F_username u => {| username := u; password := password v |}
           | F_password p => {| username := username v; password := p |}
           end;
         adminEmail := adminEmail s |}.

(** [handleSubmit] (lines 59-93). *)
Definition handleSubmit (from : state_from) (answer : fetch_result auth_body)
  : H State unit :=
  s <- get ;;
  try_catch
    (response <- fetch (auth_request (formValues s)) answer ;;
     data <- response_json response ;;
     when (negb (ok response)) (emit (AddAlert (detail data)) ;; return_) ;;
     match token data with
     | None => throw (undefined_property_error "replace")
     | Some t => emit (SetToken (strip_dquotes t))
     end ;;
     resolveDestination from)
    (fun error =>
       emit (AddAlert (VString "Ha ocurrido un error durante la autenticación"))).

(** A 2xx answer carrying a token. *)
Definition granted (d : jsval) (t : string) : fetch_result auth_body :=
  FetchResolves (mkResponse true (JsonBody (mkAuthBody d (Some t)))).

(** The answers that are not a login: no connection, a body that is not
    JSON, a non-2xx status. *)
Definition refused (answer : fetch_result auth_body) : Prop :=
  match answer with
  | FetchRejects _ => True
  | FetchResolves response =>
      ok response = false \/ exists e, json response = JsonFails e
  end.

End Login.

(** ** Effects that run when a page mounts

    The two mount effects send a plain [fetch] with the default method and
    no body, and one of them writes to the console.  They get a log of
    their own; the computations are the same state-and-log computations as
    the handlers, with [.finally] added. *)

Module Mount.

Inductive io : Type :=
| Get (ep : endpoint) (bearer : option string)
| Alert (msg : jsval)
| ConsoleError (label : string) (e : js_error).

Definition M (St A : Type) : Type :=
  St * list io -> completion A * (St * list io).

Section Ops.
Context {St : Type}.

Definition ret {A} (a : A) : M St A := fun w => (Normal a, w).

Definition bind {A B} (m : M St A) (k : A -> M St B) : M St B :=
  fun w =>
    match m w with
    | (Normal a, w') => k a w'
    | (Returned, w') => (Returned, w')
    | (Thrown e, w') => (Thrown e, w')
    end.

Definition get : M St St := fun w => (Normal (fst w), w).

(** A state setter called with a function of the current state. *)
Definition modify (f : St -> St) : M St unit :=
  fun w => (Normal tt, (f (fst w), snd w)).

Definition emit (e : io) : M St unit :=
  fun w => (Normal tt, (fst w, snd w ++ [e])).

Definition throw {A} (e : js_error) : M St A := fun w => (Thrown e, w).

(** [try { m } catch (error) { h error }] and [m.catch(h)] *)
Definition try_catch {A} (m : M St A) (h : js_error -> M St A) : M St A :=
  fun w =>
    match m w with
    | (Thrown e, w') => h e w'
    | r => r
    end.

(** [m.finally(f)]: [f] runs however [m] settled, and the settlement of
    [m] stands unless [f] itself throws. *)
Definition finally {A} (m : M St A) (f : M St unit) : M St A :=
  fun w =>
    match m w with
    | (c, w') =>
        match f w' with
        | (Thrown e, w'') => (Thrown e, w'')
        | (_, w'') => (c, w'')
        end
    end.

(** [fetch(url, { headers })] *)
Definition fetch_get {B} (ep : endpoint) (bearer : option string)
    (answer : fetch_result B) : M St (response B) :=
  bind (emit (Get ep bearer))
       (fun _ => match answer with
                 | FetchRejects e => throw e
                 | FetchResolves resp => ret resp
                 end).

Definition response_json {B} (resp : response B) : M St B :=
  match json resp with
  | JsonFails e => throw e
  | JsonBody b => ret b
  end.

Definition when (b : bool) (m : M St unit) : M St unit :=
  if b then m else ret tt.

End Ops.

Definition run {St A} (m : M St A) (s : St)
  : completion A * (St * list io) := m (s, []).

Definition outcome {St A} (r : completion A * (St * list io)) := fst r.
Definition final_state {St A} (r : completion A * (St * list io)) := fst (snd r).
Definition log {St A} (r : completion A * (St * list io)) := snd (snd r).

End Mount.

Declare Scope mount_scope.
Delimit Scope mount_scope with mount.
Notation "x <- m ;; k" := (Mount.bind m (fun x => k))
  (at level 61, m at next level, right associativity) : mount_scope.
Notation "m ;; k" := (Mount.bind m (fun _ => k))
  (at level 61, right associativity) : mount_scope.

(** ** Parsed JSON bodies that may be [null]

    [response.json()] can yield [null].  Reading a property of [null]
    throws; a number, a string, a boolean or an array reads every property
    the pages ask for as [undefined], like an object without those keys,
    and is covered by the record with its fields absent. *)

Module Json.

(** The [TypeError] raised by reading property [p] of [null]; the wording
    belongs to the engine. *)
Definition null_property_error (p : string) : js_error :=
  mkError ("Cannot read properties of null (reading '" ++ p ++ "')").

(** [data.p] in a handler, [None] being [null]. *)
Definition read {St B A} (data : option B) (p : string) (field : B -> A)
  : H St A :=
  match data with
  | None => Handler.throw (null_property_error p)
  | Some b => Handler.ret (field b)
  end.

(** [data.p] in a mount effect. *)
Definition read_mount {St B A} (data : option B) (p : string) (field : B -> A)
  : Mount.M St A :=
  match data with
  | None => Mount.throw (null_property_error p)
  | Some b => Mount.ret (field b)
  end.

(** An answer whose body is an object, seen as a parsed body. *)
Definition of_object {B} (answer : fetch_result B) : fetch_result (option B) :=
  match answer with
  | FetchRejects e => FetchRejects e
  | FetchResolves (mkResponse okb (JsonFails e)) =>
      FetchResolves (mkResponse okb (JsonFails e))
  | FetchResolves (mkResponse okb (JsonBody b)) =>
      FetchResolves (mkResponse okb (JsonBody (Some b)))
  end.

(** [Number.isSafeInteger] on numbers, true of every other value: the
    integers a double holds exactly.  [String(n)] prints these in plain
    decimal digits, which is what [to_string] does. *)
Definition safe_number (v : jsval) : bool :=
  match v with
  | VNumber n => (Z.abs n <=? 9007199254740991)%Z
  | _ => true
  end.

End Json.

(** ** Counting in an effect log *)

Module Log.

(** Number of requests in a handler's log, and so on. *)
Definition count_fetch (l : list effect) : nat :=
  length (filter (fun e => match e with Fetch _ => true | _ => false end) l).

Definition count_navigate (l : list effect) : nat :=
  length (filter (fun e => match e with Navigate _ _ => true | _ => false end) l).

Definition count_alert (l : list effect) : nat :=
  length (filter (fun e => match e with AddAlert _ => true | _ => false end) l).

Definition count_setToken (l : list effect) : nat :=
  length (filter (fun e => match e with SetToken _ => true | _ => false end) l).

End Log.

(** ** CreateArtifact.jsx: the rest of the page *)

Module CreateArtifactPage.

(** What [location.state?.from] evaluates to; the page reads it the way
    the login page does. *)
Definition state_from : Type := Login.state_from.

(** [!!location.state?.from] (line 55) *)
Definition goBack (f : state_from) : bool :=
  match f with
  | Login.NoFrom => false
  | Login.FromPath p => negb (String.eqb p "")
  | Login.FromLocation _ => true
  end.

(** [goBack ? location.state.from : "/catalog"] (line 170) *)
Definition cancel_target (f : state_from) : target :=
  match f with
  | Login.NoFrom => ToPath "/catalog"
  | Login.FromPath p => if goBack f then ToPath p else ToPath "/catalog"
  | Login.FromLocation l => ToLocation l
  end.

(** [handleCancel] (lines 169-172). *)
Definition handleCancel (f : state_from) : H CreateArtifact.State unit :=
  let from := cancel_target f in
  Handler.emit (Navigate from (goBack f)).

(** The text of the cancel button (line 273). *)
Definition cancel_label (f : state_from) : string :=
  if goBack f then "Cancelar" else "Volver al catálogo".

(** The whole state of the page: the form, and what the metadata request
    drives. *)
Record Page : Type := mkPage {
  form : CreateArtifact.State;
  loading : bool;
  errors : bool;
  shapeOptions : list CreateArtifact.MetadataOption;
  cultureOptions : list CreateArtifact.MetadataOption;
  tagOptions : list CreateArtifact.MetadataOption
}.

(** The initial values of the [useState] calls (lines 35-63). *)
Definition initialPage (tok : string) : Page :=
  {| form := CreateArtifact.initialState tok;
     loading := true;
     errors := false;
     shapeOptions := [];
     cultureOptions := [];
     tagOptions := [] |}.

Definition setLoading (b : bool) (p : Page) : Page :=
  mkPage (form p) b (errors p) (shapeOptions p) (cultureOptions p) (tagOptions p).
Definition setErrors (b : bool) (p : Page) : Page :=
  mkPage (form p) (loading p) b (shapeOptions p) (cultureOptions p) (tagOptions p).
Definition setShapeOptions (l : list CreateArtifact.MetadataOption) (p : Page) : Page :=
  mkPage (form p) (loading p) (errors p) l (cultureOptions p) (tagOptions p).
Definition setCultureOptions (l : list CreateArtifact.MetadataOption) (p : Page) : Page :=
  mkPage (form p) (loading p) (errors p) (shapeOptions p) l (tagOptions p).
Definition setTagOptions (l : list CreateArtifact.MetadataOption) (p : Page) : Page :=
  mkPage (form p) (loading p) (errors p) (shapeOptions p) (cultureOptions p) l.

(** The metadata endpoint answers [{ data: { shapes, cultures, tags } }]
    or [{ detail }]. *)
Record metadata : Type := mkMetadata {
  shapes : list CreateArtifact.MetadataOption;
  cultures : list CreateArtifact.MetadataOption;
  tags : list CreateArtifact.MetadataOption
}.
Record metadata_body : Type := mkMetadataBody {
  detail : jsval;
  data : option metadata
}.

Local Open Scope mount_scope.

(** The effect that fetches the option lists (lines 76-103).  The
    [catch] and the [finally] hang on [response.json()]; a rejected
    [fetch] reaches neither. *)
Definition metadata_effect (answer : fetch_result metadata_body)
  : Mount.M Page unit :=
  p <- Mount.get ;;
  response <- Mount.fetch_get ALL_METADATA
                (Some (CreateArtifact.token (form p))) answer ;;
  Mount.finally
    (Mount.try_catch
       (data <- Mount.response_json response ;;
        Mount.when (negb (ok response)) (Mount.throw (new_Error (detail data))) ;;
        match CreateArtifactPage.data data with
        | None => Mount.throw (undefined_property_error "shapes")
        | Some metadata =>
            Mount.modify (setShapeOptions (shapes metadata)) ;;
            Mount.modify (setCultureOptions (cultures metadata)) ;;
            Mount.modify (setTagOptions (tags metadata))
        end)
       (fun error =>
          Mount.modify (setErrors true) ;;
          Mount.emit (Mount.Alert (VString (message error)))))
    (Mount.modify (setLoading false)).

Local Close Scope mount_scope.

(** [disabled={loading || errors}] of the three selectors (lines 237,
    251, 266). *)
Definition selectors_disabled (p : Page) : bool := loading p || errors p.

(** The props the page passes to one upload button (lines 181-209); a
    prop that is not passed is [None]. *)
Record UploadButtonProps : Type := mkUploadButton {
  label : string;
  name : string;
  isRequired : option bool;
  isMultiple : bool
}.

Definition upload_buttons (s : CreateArtifact.State) : list UploadButtonProps :=
  let modelRequired := CreateArtifact.modelRequired s in
  [ mkUploadButton (if modelRequired then "Objeto *" else "Objeto")
      "object" (Some modelRequired) false;
    mkUploadButton (if modelRequired then "Textura *" else "Textura")
      "texture" (Some modelRequired) false;
    mkUploadButton (if modelRequired then "Material *" else "Material")
      "material" (Some modelRequired) false;
    mkUploadButton "Miniatura (opcional)" "thumbnail" None false;
    mkUploadButton "Imágenes (opcional)" "images" None true ].

(** A button the page marks as mandatory. *)
Definition marked_required (b : UploadButtonProps) : bool :=
  match isRequired b with
  | Some true => true
  | _ => false
  end.

(** The names [handleSubmit] appends under (lines 131-142). *)
Definition field_names : list string :=
  [ "model[new_object]"; "model[new_texture]"; "model[new_material]";
    "new_thumbnail"; "new_images"; "description"; "id_shape"; "id_culture";
    "id_tags" ].

(** An edit that goes to one of the three model slots. *)
Definition model_slot_edit (f : CreateArtifact.field) : bool :=
  match f with
  | CreateArtifact.F_object _
  | CreateArtifact.F_texture _
  | CreateArtifact.F_material _ => true
  | _ => false
  end.

(** The upload answered 2xx with a JSON body that has [data]. *)
Definition upload_accepted (answer : fetch_result CreateArtifact.upload_body) : bool :=
  match answer with
  | FetchResolves (mkResponse true (JsonBody b)) =>
      match CreateArtifact.data b with
      | Some _ => true
      | None => false
      end
  | _ => false
  end.

(** The metadata request answered 2xx with a JSON body that has
    [data]. *)
Definition metadata_delivered (answer : fetch_result metadata_body) : bool :=
  match answer with
  | FetchResolves (mkResponse true (JsonBody b)) =>
      match data b with
      | Some _ => true
      | None => false
      end
  | _ => false
  end.

(** *** The upload answer with a body that may be [null] *)

(** Lines 151-166 again, over a parsed body: [data.detail] and
    [data.data] are reads that throw on [null]. *)
Definition on_response_parsed
    (response : Dom.response (option CreateArtifact.upload_body))
  : H CreateArtifact.State unit :=
  (Handler.try_catch
     (data <- Handler.response_json response ;;
      Handler.when (negb (ok response))
        (d <- Json.read data "detail" CreateArtifact.detail ;;
         Handler.throw (new_Error d)) ;;
      successfully_response <- Json.read data "data" CreateArtifact.data ;;
      match successfully_response with
      | None => Handler.throw (undefined_property_error "id")
      | Some successfully_response =>
          let newArtifactId := CreateArtifact.artifact_id successfully_response in
          Handler.emit (AddAlert (VString "¡Objeto creado con éxito!")) ;;
          Handler.emit
            (Navigate (ToPath ("/catalog/" ++ to_string newArtifactId)) false)
      end)
     (fun error => Handler.emit (AddAlert (VString (message error)))))%handler.

(** [handleSubmit] (lines 114-167) over a parsed body. *)
Definition handleSubmit_parsed
    (answer : fetch_result (option CreateArtifact.upload_body))
  : H CreateArtifact.State unit :=
  (s <- Handler.get ;;
   CreateArtifact.gate s ;;
   let formData := CreateArtifact.assemble (CreateArtifact.newObjectAttributes s) in
   response <- Handler.fetch
                 (CreateArtifact.upload_request (CreateArtifact.token s) formData)
                 answer ;;
   on_response_parsed response)%handler.

(** *** What a [FormData] keeps *)

(** [append] stores a [File] as it is and any other value as
    [String(value)]. *)
Definition entry_value (v : jsval) : jsval :=
  match v with
  | VFile f => VFile f
  | _ => VString (to_string v)
  end.

(** [formData.getAll(name)] as the browser answers it: the stored values
    of the [append] calls under [name], in order. *)
Definition formData_getAll (name : string) (fd : FormData) : list jsval :=
  map entry_value (CreateArtifact.getAll name fd).

Definition file_or_placeholder (v : jsval) : bool :=
  match v with
  | VFile _ | VEmptyObject => true
  | _ => false
  end.

(** An id as the metadata lists carry it, or the empty string of a
    selector never used. *)
Definition string_or_safe_integer (v : jsval) : bool :=
  match v with
  | VString _ => true
  | VNumber _ => Json.safe_number v
  | _ => false
  end.

(** A draft as the widgets produce it: each slot a file or the
    placeholder, the images files, every id a string or a safe
    integer. *)
Definition widget_draft (a : CreateArtifact.Attributes) : Prop :=
  file_or_placeholder (CreateArtifact.object a) = true
  /\ file_or_placeholder (CreateArtifact.texture a) = true
  /\ file_or_placeholder (CreateArtifact.material a) = true
  /\ file_or_placeholder (CreateArtifact.thumbnail a) = true
  /\ Forall (fun image => instanceof_File image = true) (CreateArtifact.images a)
  /\ string_or_safe_integer (CreateArtifact.id (CreateArtifact.shape a)) = true
  /\ string_or_safe_integer (CreateArtifact.id (CreateArtifact.culture a)) = true
  /\ Forall (fun tag => string_or_safe_integer (CreateArtifact.id tag) = true)
       (CreateArtifact.tags a).

(** *** What is on screen *)

(** The states React renders.  After a handler it renders once with the
    state the handler left, before the effect has run ([render_pending]),
    and again once the effect has ([render_settled]). *)
Inductive rendered (tok : string) : CreateArtifact.State -> Prop :=
| render_settled s :
    CreateArtifact.reachable tok s -> rendered tok s
| render_pending s ev :
    CreateArtifact.reachable tok s ->
    rendered tok (final_state (run (CreateArtifact.handler_of ev) s)).

End CreateArtifactPage.

(** ** Login.jsx: the rest of the page *)

Module LoginPage.

(** The admin-email endpoint answers [{ admin_email }]; a body without
    the key reads as [undefined]. *)
Record admin_body : Type := mkAdminBody { admin_email : jsval }.

Local Open Scope mount_scope.

(** [fetchAdminEmail] (lines 35-44), over the [adminEmail] cell it
    sets.  The body may be [null]. *)
Definition fetchAdminEmail (answer : fetch_result (option admin_body))
  : Mount.M jsval unit :=
  Mount.try_catch
    (response <- Mount.fetch_get ADMIN_MAIL None answer ;;
     data <- Mount.response_json response ;;
     email <- Json.read_mount data "admin_email" admin_email ;;
     Mount.modify (fun _ => email))
    (fun error =>
       Mount.emit (Mount.ConsoleError "Error fetching admin email:" error)).

Local Close Scope mount_scope.

(** The route of the recovery link (line 136). *)
Definition password_recovery_route : string := "/password-recovery".

(** The click on [Recuperar Contraseña] (line 136). *)
Definition recover_password_click : H Login.State unit :=
  Handler.emit (Navigate (ToPath password_recovery_route) false).

(** [handleSubmit] (lines 59-93) over a parsed body: [data.detail] and
    [data.token] are reads that throw on [null], inside the [try]. *)
Definition handleSubmit_parsed (from : Login.state_from)
    (answer : fetch_result (option Login.auth_body))
  : H Login.State unit :=
  (s <- Handler.get ;;
   Handler.try_catch
     (response <- Handler.fetch (Login.auth_request (Login.formValues s)) answer ;;
      data <- Handler.response_json response ;;
      Handler.when (negb (ok response))
        (d <- Json.read data "detail" Login.detail ;;
         Handler.emit (AddAlert d) ;; Handler.return_) ;;
      tok <- Json.read data "token" Login.token ;;
      match tok with
      | None => Handler.throw (undefined_property_error "replace")
      | Some t => Handler.emit (SetToken (strip_dquotes t))
      end ;;
      Login.resolveDestination from)
     (fun error =>
        Handler.emit
          (AddAlert (VString "Ha ocurrido un error durante la autenticación"))))%handler.

(** The auth endpoint answered 2xx with a JSON body that has a
    [token]. *)
Definition login_granted (answer : fetch_result Login.auth_body) : bool :=
  match answer with
  | FetchResolves (mkResponse true (JsonBody b)) =>
      match Login.token b with
      | Some _ => true
      | None => false
      end
  | _ => false
  end.

(** The alert of the [catch] block (line 91). *)
Definition authentication_error : string :=
  "Ha ocurrido un error durante la autenticación".

(** The characters of a string. *)
Definition chars (s : string) : list ascii := list_ascii_of_string s.

End LoginPage.

(** * Properties of the artifact form *)

Module CreateArtifactProofs.
Import CreateArtifact.

Lemma instanceof_File_true (v : jsval) :
  instanceof_File v = true <-> holds_file v.
Proof.
  split.
  - destruct v; simpl; try discriminate. intros _. now exists f.
  - intros [f ->]. reflexivity.
Qed.

Lemma instanceof_File_false (v : jsval) :
  instanceof_File v = false <-> ~ holds_file v.
Proof.
  rewrite <- instanceof_File_true.
  destruct (instanceof_File v); split; congruence.
Qed.

Lemma recomputeRequirement_true (a : Attributes) :
  recomputeRequirement a = true <-> some_model_part a.
Proof.
  unfold recomputeRequirement, some_model_part.
  rewrite !orb_true_iff, !instanceof_File_true. tauto.
Qed.

Lemma file_eqb_eq (f g : File) : file_eqb f g = true -> f = g.
Proof.
  destruct f as [n1 z1], g as [n2 z2]. unfold file_eqb. simpl.
  rewrite andb_true_iff, String.eqb_eq, N.eqb_eq.
  intros [-> ->]. reflexivity.
Qed.

Lemma jsval_eqb_eq (v w : jsval) : jsval_eqb v w = true -> v = w.
Proof.
  destruct v, w; simpl; try discriminate; try reflexivity.
  - rewrite String.eqb_eq. now intros ->.
  - rewrite Z.eqb_eq. now intros ->.
  - intros E. now rewrite (file_eqb_eq _ _ E).
Qed.

(** Unchanged dependencies give the same requirement. *)
Lemma deps_unchanged_requirement (a b : Attributes) :
  deps_changed a b = false ->
  recomputeRequirement b = recomputeRequirement a.
Proof.
  unfold deps_changed, recomputeRequirement.
  rewrite negb_false_iff, !andb_true_iff.
  intros [[E1 E2] E3].
  apply jsval_eqb_eq in E1, E2, E3. now rewrite E1, E2, E3.
Qed.

Lemma modelRequired_effect_flag (s : State) :
  modelRequired (modelRequired_effect s)
  = recomputeRequirement (newObjectAttributes s).
Proof.
  unfold modelRequired_effect.
  destruct (recomputeRequirement (newObjectAttributes s)); reflexivity.
Qed.

Lemma modelRequired_effect_attributes (s : State) :
  newObjectAttributes (modelRequired_effect s) = newObjectAttributes s.
Proof.
  unfold modelRequired_effect.
  destruct (recomputeRequirement (newObjectAttributes s)); reflexivity.
Qed.

(** Running the effect once more changes nothing. *)
Lemma modelRequired_effect_idempotent (s : State) :
  modelRequired_effect (modelRequired_effect s) = modelRequired_effect s.
Proof.
  unfold modelRequired_effect.
  destruct (recomputeRequirement (newObjectAttributes s)) eqn:E; simpl; now rewrite E.
Qed.

(** The gate, case by case. *)
Lemma gate_run (s : State) :
  run (gate s) s =
  if modelRequired s then
    if instanceof_File (object (newObjectAttributes s))
       && instanceof_File (texture (newObjectAttributes s))
       && instanceof_File (material (newObjectAttributes s))
    then (Normal tt, (s, []))
    else (Returned, (s, [AddAlert (VString IncompleteModelSet)]))
  else
    match images (newObjectAttributes s) with
    | [] => (Returned, (s, [AddAlert (VString NoAssetProvided)]))
    | _ :: _ => (Normal tt, (s, []))
    end.
Proof.
  unfold run, gate.
  destruct (modelRequired s).
  - destruct (instanceof_File (object (newObjectAttributes s))),
             (instanceof_File (texture (newObjectAttributes s))),
             (instanceof_File (material (newObjectAttributes s))); reflexivity.
  - destruct (images (newObjectAttributes s)); reflexivity.
Qed.

(** A submission that the gate stops is the gate's alert and nothing
    else. *)
Lemma handleSubmit_stopped (answer : fetch_result upload_body) (s : State) (l : list effect) :
  run (gate s) s = (Returned, (s, l)) ->
  run (handleSubmit answer) s = (Returned, (s, l)).
Proof.
  unfold run, handleSubmit, bind, get. simpl. intros ->. reflexivity.
Qed.

(** A submission that passes the gate sends the assembled body, then
    handles the answer. *)
Lemma handleSubmit_passed (answer : fetch_result upload_body) (s : State) :
  run (gate s) s = (Normal tt, (s, [])) ->
  run (handleSubmit answer) s =
  match answer with
  | FetchRejects e =>
      (Thrown e,
       (s, [Fetch (upload_request (token s) (assemble (newObjectAttributes s)))]))
  | FetchResolves response =>
      on_response response
        (s, [Fetch (upload_request (token s) (assemble (newObjectAttributes s)))])
  end.
Proof.
  unfold run, handleSubmit, bind, get, fetch, emit. simpl. intros ->.
  destruct answer; reflexivity.
Qed.

Lemma on_response_state (response : Dom.response upload_body) (s : State) (l : list effect) :
  fst (snd (on_response response (s, l))) = s.
Proof.
  unfold on_response, try_catch, bind, response_json, when.
  destruct response as [okb [e | [d [art |]]]]; destruct okb; reflexivity.
Qed.

(** [handleSubmit] never writes the component state. *)
Lemma handleSubmit_state (answer : fetch_result upload_body) (s : State) :
  final_state (run (handleSubmit answer) s) = s.
Proof.
  destruct (run (gate s) s) as [[[] | | e] [s' l]] eqn:G.
  - rewrite gate_run in G.
    assert (G' : run (gate s) s = (Normal tt, (s, []))).
    { rewrite gate_run.
      destruct (modelRequired s);
        [ destruct (_ && _) | destruct (images _) ]; congruence. }
    rewrite (handleSubmit_passed answer s G').
    destruct answer; [reflexivity | apply on_response_state].
  - assert (s' = s) as ->.
    { rewrite gate_run in G.
      destruct (modelRequired s);
        [ destruct (_ && _) | destruct (images _) ]; congruence. }
    now rewrite (handleSubmit_stopped answer s l G).
  - rewrite gate_run in G.
    destruct (modelRequired s);
      [ destruct (_ && _) | destruct (images _) ]; discriminate.
Qed.

(** No handler writes the flag: [setModelRequired] is called by the effect
    only. *)
Lemma handler_keeps_flag (ev : event) (s : State) :
  modelRequired (final_state (run (handler_of ev) s)) = modelRequired s.
Proof.
  destruct ev as [f | a | answer]; try reflexivity.
  simpl handler_of. now rewrite handleSubmit_state.
Qed.

Lemma render_effects_flag (prev next : State) :
  modelRequired prev = recomputeRequirement (newObjectAttributes prev) ->
  modelRequired next = modelRequired prev ->
  modelRequired (render_effects prev next)
  = recomputeRequirement (newObjectAttributes (render_effects prev next)).
Proof.
  intros Inv Keep. unfold render_effects.
  destruct (deps_changed _ _) eqn:D.
  - now rewrite modelRequired_effect_flag, modelRequired_effect_attributes.
  - rewrite Keep, Inv. symmetry. now apply deps_unchanged_requirement.
Qed.

(** The flag agrees with the slots in every reachable state. *)
Lemma reachable_flag (tok : string) (s : State) :
  reachable tok s ->
  modelRequired s = recomputeRequirement (newObjectAttributes s).
Proof.
  induction 1 as [| s ev R IH].
  - reflexivity.
  - unfold dispatch. apply render_effects_flag; [exact IH |].
    apply handler_keeps_flag.
Qed.

Lemma dispatch_slot_attributes (f : field) (s : State) :
  newObjectAttributes (dispatch (InputChange f) s)
  = spread_with (newObjectAttributes s) f.
Proof.
  unfold dispatch, render_effects. simpl.
  destruct (deps_changed _ _); [apply modelRequired_effect_attributes | reflexivity].
Qed.

(** C1. The [modelRequired] flag is derived from the three model slots:
    (1) the effect leaves it true exactly when one of [object], [texture],
    [material] holds an actual file; (2) in every state a handler can
    observe - after mount and after every update of the draft followed by
    its render - the flag is true iff one of the three slots holds a file;
    (3) no handler writes the flag, so only the effect sets it; (4) from a
    draft with three empty slots, attaching a file to any one slot turns
    the flag from false to true. *)
Theorem modelRequired_tracks_model_parts :
  (forall s,
      modelRequired (modelRequired_effect s) = true
      <-> some_model_part (newObjectAttributes s))
  /\ (forall tok s,
        reachable tok s ->
        (modelRequired s = true <-> some_model_part (newObjectAttributes s)))
  /\ (forall ev s,
        modelRequired (final_state (run (handler_of ev) s)) = modelRequired s)
  /\ (forall tok s f,
        reachable tok s ->
        ~ some_model_part (newObjectAttributes s) ->
        modelRequired s = false
        /\ modelRequired (dispatch (InputChange (F_object (VFile f))) s) = true
        /\ modelRequired (dispatch (InputChange (F_texture (VFile f))) s) = true
        /\ modelRequired (dispatch (InputChange (F_material (VFile f))) s) = true).
Proof.
  split; [| split; [| split]].
  - intros s. rewrite modelRequired_effect_flag. apply recomputeRequirement_true.
  - intros tok s R. rewrite (reachable_flag tok s R). apply recomputeRequirement_true.
  - exact handler_keeps_flag.
  - intros tok s f R No.
    split.
    + rewrite (reachable_flag tok s R).
      destruct (recomputeRequirement (newObjectAttributes s)) eqn:E; [| reflexivity].
      apply recomputeRequirement_true in E. contradiction.
    + repeat split.
      all: match goal with
           | |- modelRequired (dispatch ?ev ?s0) = true =>
               rewrite (reachable_flag tok (dispatch ev s0) (reach_dispatch tok s0 ev R));
               rewrite dispatch_slot_attributes;
               apply recomputeRequirement_true
           end.
      * left. now exists f.
      * right; left. now exists f.
      * right; right. now exists f.
Qed.

(** A draft whose texture was picked and nothing else, reached by one
    edit after mount. *)
Lemma modelRequired_tracks_model_parts_witness :
  let s := dispatch (InputChange (F_texture (VFile (mkFile "vasija.jpg" 2048))))
                    (mount "t0k3n") in
  reachable "t0k3n" s
  /\ (modelRequired s = true <-> some_model_part (newObjectAttributes s)).
Proof.
  intros s. split.
  - apply reach_dispatch, reach_mount.
  - apply (proj1 (proj2 modelRequired_tracks_model_parts) "t0k3n" s).
    apply reach_dispatch, reach_mount.
Defined.

Lemma alert_only_no_fetch (m : jsval) : ~ attempts_fetch [AddAlert m].
Proof.
  intros [r [E | []]]. discriminate E.
Qed.

Lemma not_all_files (a : Attributes) :
  ~ holds_file (object a) \/ ~ holds_file (texture a) \/ ~ holds_file (material a) ->
  instanceof_File (object a) && instanceof_File (texture a)
  && instanceof_File (material a) = false.
Proof.
  rewrite <- !instanceof_File_false. rewrite !andb_false_iff. tauto.
Qed.

(** C2. With [modelRequired] true and at least one of the three model
    slots not holding a file, [handleSubmit] stops at the gate: it returns
    early, its only effect is the alert asking for the three files, the
    state is untouched and no request is sent, whatever the network would
    have answered. *)
Theorem incomplete_model_set_blocks_upload
    (s : State) (answer : fetch_result upload_body) :
  modelRequired s = true ->
  ~ holds_file (object (newObjectAttributes s))
  \/ ~ holds_file (texture (newObjectAttributes s))
  \/ ~ holds_file (material (newObjectAttributes s)) ->
  run (handleSubmit answer) s
  = (Returned, (s, [AddAlert (VString IncompleteModelSet)]))
  /\ ~ attempts_fetch (effects (run (handleSubmit answer) s)).
Proof.
  intros Req Missing.
  assert (E : run (handleSubmit answer) s
              = (Returned, (s, [AddAlert (VString IncompleteModelSet)]))).
  { apply handleSubmit_stopped. rewrite gate_run, Req.
    now rewrite (not_all_files _ Missing). }
  split; [exact E |].
  rewrite E. apply alert_only_no_fetch.
Qed.

(** Object and material picked, texture still the placeholder, the flag
    on. *)
Lemma incomplete_model_set_blocks_upload_witness :
  let a := spread_with
             (spread_with initialAttributes (F_object (VFile (mkFile "olla.obj" 90210))))
             (F_material (VFile (mkFile "olla.mtl" 512))) in
  let s := mkState a true "t0k3n" in
  run (handleSubmit (FetchRejects (mkError "Failed to fetch"))) s
  = (Returned, (s, [AddAlert (VString IncompleteModelSet)]))
  /\ ~ attempts_fetch
        (effects (run (handleSubmit (FetchRejects (mkError "Failed to fetch"))) s)).
Proof.
  intros a s.
  apply (incomplete_model_set_blocks_upload s).
  - reflexivity.
  - right; left. intros [f E]. discriminate E.
Defined.

(** C3. With [modelRequired] false, an empty [images] array stops
    [handleSubmit] at the gate with the alert asking for images and no
    request; one image or more lets the gate through, and the upload
    request is the next thing that happens. *)
Theorem no_asset_provided_blocks_upload :
  (forall s answer,
      modelRequired s = false ->
      images (newObjectAttributes s) = [] ->
      run (handleSubmit answer) s
      = (Returned, (s, [AddAlert (VString NoAssetProvided)]))
      /\ ~ attempts_fetch (effects (run (handleSubmit answer) s)))
  /\ (forall s answer,
        modelRequired s = false ->
        images (newObjectAttributes s) <> [] ->
        run (gate s) s = (Normal tt, (s, []))
        /\ exists rest,
            effects (run (handleSubmit answer) s)
            = Fetch (upload_request (token s) (assemble (newObjectAttributes s)))
              :: rest).
Proof.
  split.
  - intros s answer Req Empty.
    assert (E : run (handleSubmit answer) s
                = (Returned, (s, [AddAlert (VString NoAssetProvided)]))).
    { apply handleSubmit_stopped. now rewrite gate_run, Req, Empty. }
    split; [exact E |]. rewrite E. apply alert_only_no_fetch.
  - intros s answer Req Some_image.
    assert (G : run (gate s) s = (Normal tt, (s, []))).
    { rewrite gate_run, Req.
      destruct (images (newObjectAttributes s)); [contradiction | reflexivity]. }
    split; [exact G |].
    rewrite (handleSubmit_passed answer s G).
    destruct answer as [e | response].
    + now exists [].
    + unfold on_response, try_catch, bind, response_json, when, effects.
      destruct response as [okb [e | [d [art |]]]]; destruct okb; simpl;
        eexists; reflexivity.
Qed.

(** The draft as mounted has no image; with one photo it passes. *)
Lemma no_asset_provided_blocks_upload_witness :
  let s0 := mkState initialAttributes false "t0k3n" in
  let s1 := mkState (spread_with initialAttributes
                       (F_images [VFile (mkFile "frente.png" 4096)]))
                    false "t0k3n" in
  let down := FetchRejects (mkError "Failed to fetch") in
  (run (handleSubmit down) s0
   = (Returned, (s0, [AddAlert (VString NoAssetProvided)]))
   /\ ~ attempts_fetch (effects (run (handleSubmit down) s0)))
  /\ (run (gate s1) s1 = (Normal tt, (s1, []))
      /\ exists rest,
          effects (run (handleSubmit down) s1)
          = Fetch (upload_request (token s1) (assemble (newObjectAttributes s1)))
            :: rest).
Proof.
  intros s0 s1 down. split.
  - apply (proj1 no_asset_provided_blocks_upload s0 down); reflexivity.
  - apply (proj2 no_asset_provided_blocks_upload s1 down).
    + reflexivity.
    + discriminate.
Defined.

Lemma passes_gate_run (s : State) :
  passes_gate s -> run (gate s) s = (Normal tt, (s, [])).
Proof.
  unfold passes_gate, outcome. rewrite gate_run.
  destruct (modelRequired s);
    [ destruct (_ && _) | destruct (images _) ]; simpl; congruence.
Qed.

(** What passing the gate amounts to. *)
Lemma passes_gate_iff (s : State) :
  passes_gate s <->
  (modelRequired s = true /\ all_model_parts (newObjectAttributes s))
  \/ (modelRequired s = false /\ images (newObjectAttributes s) <> []).
Proof.
  unfold passes_gate, outcome, all_model_parts. rewrite gate_run.
  rewrite <- !instanceof_File_true.
  destruct (modelRequired s).
  - destruct (instanceof_File (object _)), (instanceof_File (texture _)),
             (instanceof_File (material _)); simpl;
      split; try discriminate; try tauto;
      intros [[_ (? & ? & ?)] | [? _]]; discriminate.
  - destruct (images _); simpl; split; try discriminate; try tauto.
    + intros [[? _] | [_ ?]]; [discriminate | contradiction].
    + intros _. right. split; [reflexivity | discriminate].
Qed.

Lemma handleSubmit_sends_assembled (answer : fetch_result upload_body) (s : State) :
  passes_gate s ->
  exists rest,
    effects (run (handleSubmit answer) s)
    = Fetch (upload_request (token s) (assemble (newObjectAttributes s))) :: rest.
Proof.
  intros P. rewrite (handleSubmit_passed answer s (passes_gate_run s P)).
  destruct answer as [e | response].
  - now exists [].
  - unfold on_response, try_catch, bind, response_json, when, effects.
    destruct response as [okb [e | [d [art |]]]]; destruct okb; simpl;
      eexists; reflexivity.
Qed.

Lemma forEach_append_map {A} (l : list A) (key : string) (f : A -> jsval)
    (fd : FormData) :
  forEach_append l key f fd = fd ++ map (fun x => (key, f x)) l.
Proof.
  unfold forEach_append. revert fd.
  induction l as [| x l IH]; intros fd; simpl.
  - now rewrite app_nil_r.
  - rewrite IH. unfold append. now rewrite <- app_assoc.
Qed.

(** The body in closed form. *)
Lemma assemble_entries (a : Attributes) :
  assemble a =
  [ ("model[new_object]", object a);
    ("model[new_texture]", texture a);
    ("model[new_material]", material a);
    ("new_thumbnail", thumbnail a) ]
  ++ map (fun image => ("new_images", image)) (images a)
  ++ [ ("description", VString (description a));
       ("id_shape", id (shape a));
       ("id_culture", id (culture a)) ]
  ++ map (fun tag => ("id_tags", id tag)) (tags a).
Proof.
  unfold assemble. rewrite !forEach_append_map. unfold append. simpl.
  rewrite <- !app_assoc. reflexivity.
Qed.

Lemma getAll_app (name : string) (fd1 fd2 : FormData) :
  getAll name (fd1 ++ fd2) = getAll name fd1 ++ getAll name fd2.
Proof.
  unfold getAll. now rewrite filter_app, map_app.
Qed.

Lemma getAll_other_key {A} (name key : string) (f : A -> jsval) (l : list A) :
  String.eqb key name = false ->
  getAll name (map (fun x => (key, f x)) l) = [].
Proof.
  intros E. unfold getAll.
  induction l as [| x l IH]; simpl; [reflexivity |].
  now rewrite E.
Qed.

Lemma getAll_same_key {A} (key : string) (f : A -> jsval) (l : list A) :
  getAll key (map (fun x => (key, f x)) l) = map f l.
Proof.
  unfold getAll.
  induction l as [| x l IH]; simpl; [reflexivity |].
  rewrite String.eqb_refl. simpl. now rewrite IH.
Qed.

(** C4. The body [handleSubmit] sends for a draft that passed the gate
    is, in this order: [model[new_object]], [model[new_texture]],
    [model[new_material]], [new_thumbnail], one [new_images] entry per
    image in array order, [description], [id_shape] and [id_culture]
    carrying the [id] of the selected option only, and one [id_tags]
    entry per tag in selection order.  With two images and three tags the
    [new_images] entries are exactly those two and the [id_tags] entries
    exactly those three ids. *)
Theorem assemble_field_order :
  (forall s answer,
      passes_gate s ->
      let a := newObjectAttributes s in
      exists rest,
        effects (run (handleSubmit answer) s)
        = Fetch (upload_request (token s)
                   ([ ("model[new_object]", object a);
                      ("model[new_texture]", texture a);
                      ("model[new_material]", material a);
                      ("new_thumbnail", thumbnail a) ]
                    ++ map (fun image => ("new_images", image)) (images a)
                    ++ [ ("description", VString (description a));
                         ("id_shape", id (shape a));
                         ("id_culture", id (culture a)) ]
                    ++ map (fun tag => ("id_tags", id tag)) (tags a)))
          :: rest)
  /\ (forall a i1 i2 t1 t2 t3,
        images a = [i1; i2] ->
        tags a = [t1; t2; t3] ->
        assemble a
        = [ ("model[new_object]", object a);
            ("model[new_texture]", texture a);
            ("model[new_material]", material a);
            ("new_thumbnail", thumbnail a);
            ("new_images", i1);
            ("new_images", i2);
            ("description", VString (description a));
            ("id_shape", id (shape a));
            ("id_culture", id (culture a));
            ("id_tags", id t1);
            ("id_tags", id t2);
            ("id_tags", id t3) ]
        /\ getAll "new_images" (assemble a) = [i1; i2]
        /\ getAll "id_tags" (assemble a) = [id t1; id t2; id t3]).
Proof.
  split.
  - intros s answer P a.
    destruct (handleSubmit_sends_assembled answer s P) as [rest E].
    exists rest. rewrite E. subst a. now rewrite assemble_entries.
  - intros a i1 i2 t1 t2 t3 Ei Et.
    rewrite assemble_entries, Ei, Et. simpl.
    repeat split.
Qed.

Lemma assemble_field_order_witness :
  (exists rest,
      effects (run (handleSubmit (FetchRejects (mkError "Failed to fetch"))) sample_state)
      = Fetch (upload_request "t0k3n"
                 [ ("model[new_object]", VEmptyObject);
                   ("model[new_texture]", VEmptyObject);
                   ("model[new_material]", VEmptyObject);
                   ("new_thumbnail", VEmptyObject);
                   ("new_images", VFile (mkFile "frente.png" 4096));
                   ("new_images", VFile (mkFile "base.jpg" 3072));
                   ("description", VString "Vasija");
                   ("id_shape", VNumber 3);
                   ("id_culture", VNumber 5);
                   ("id_tags", VNumber 7);
                   ("id_tags", VNumber 2);
                   ("id_tags", VNumber 11) ])
        :: rest)
  /\ getAll "new_images" (assemble sample_attributes) = sample_images
  /\ getAll "id_tags" (assemble sample_attributes) = map id sample_tags.
Proof.
  split.
  - exact (proj1 assemble_field_order sample_state
             (FetchRejects (mkError "Failed to fetch"))
             (eq_refl : passes_gate sample_state)).
  - exact (proj2 (proj2 assemble_field_order sample_attributes _ _ _ _ _
                    eq_refl eq_refl)).
Defined.

(** C10. The body sent for a draft that passed the gate has exactly one
    entry under each of [model[new_object]], [model[new_texture]],
    [model[new_material]] and [new_thumbnail], and that entry is whatever
    the slot holds: for a slot without a file the empty placeholder object
    itself is appended, the field is not left out. *)
Theorem model_and_thumbnail_fields_always_present
    (s : State) (answer : fetch_result upload_body) :
  passes_gate s ->
  let a := newObjectAttributes s in
  exists fd rest,
    effects (run (handleSubmit answer) s)
    = Fetch (upload_request (token s) fd) :: rest
    /\ getAll "model[new_object]" fd = [object a]
    /\ getAll "model[new_texture]" fd = [texture a]
    /\ getAll "model[new_material]" fd = [material a]
    /\ getAll "new_thumbnail" fd = [thumbnail a].
Proof.
  intros P a.
  destruct (handleSubmit_sends_assembled answer s P) as [rest E].
  exists (assemble a), rest. split; [exact E |].
  subst a. rewrite assemble_entries.
  repeat split.
  all: rewrite !getAll_app;
       rewrite !getAll_other_key by reflexivity;
       reflexivity.
Qed.

(** The sample draft has no model file and no thumbnail: the four fields
    are there all the same, each holding the placeholder. *)
Lemma model_and_thumbnail_fields_always_present_witness :
  exists fd rest,
    effects (run (handleSubmit (FetchRejects (mkError "Failed to fetch"))) sample_state)
    = Fetch (upload_request "t0k3n" fd) :: rest
    /\ getAll "model[new_object]" fd = [VEmptyObject]
    /\ getAll "model[new_texture]" fd = [VEmptyObject]
    /\ getAll "model[new_material]" fd = [VEmptyObject]
    /\ getAll "new_thumbnail" fd = [VEmptyObject].
Proof.
  exact (model_and_thumbnail_fields_always_present sample_state
           (FetchRejects (mkError "Failed to fetch"))
             (eq_refl : passes_gate sample_state)).
Defined.

Lemma not_all_model_parts (a : Attributes) :
  ~ all_model_parts a ->
  instanceof_File (object a) && instanceof_File (texture a)
  && instanceof_File (material a) = false.
Proof.
  unfold all_model_parts. rewrite <- !instanceof_File_true.
  destruct (instanceof_File (object a)), (instanceof_File (texture a)),
           (instanceof_File (material a)); simpl; tauto.
Qed.

(** C9. In a state the form can be in, the two checks of the gate exclude
    one another on the model slots: (1) with one or two model files
    attached, [handleSubmit] stops with the three-files alert and sends
    nothing, whatever [images] holds; (2) with any model file attached,
    replacing [images] by any other array changes neither the outcome nor
    the alerts of the gate; (3) the images alert comes only from a draft
    with no model file, and (4) the three-files alert only from a draft
    with one. *)
Theorem images_never_replace_model_parts :
  (forall tok s answer,
      reachable tok s ->
      some_model_part (newObjectAttributes s) ->
      ~ all_model_parts (newObjectAttributes s) ->
      run (handleSubmit answer) s
      = (Returned, (s, [AddAlert (VString IncompleteModelSet)]))
      /\ ~ attempts_fetch (effects (run (handleSubmit answer) s)))
  /\ (forall tok s imgs,
        reachable tok s ->
        some_model_part (newObjectAttributes s) ->
        let s' := setNewObjectAttributes
                    (spread_with (newObjectAttributes s) (F_images imgs)) s in
        outcome (run (gate s') s') = outcome (run (gate s) s)
        /\ effects (run (gate s') s') = effects (run (gate s) s))
  /\ (forall tok s,
        reachable tok s ->
        In (AddAlert (VString NoAssetProvided)) (effects (run (gate s) s)) ->
        ~ some_model_part (newObjectAttributes s))
  /\ (forall tok s,
        reachable tok s ->
        In (AddAlert (VString IncompleteModelSet)) (effects (run (gate s) s)) ->
        some_model_part (newObjectAttributes s)).
Proof.
  split; [| split; [| split]].
  - intros tok s answer R Some_part Not_all.
    assert (Req : modelRequired s = true).
    { rewrite (reachable_flag tok s R). now apply recomputeRequirement_true. }
    assert (E : run (handleSubmit answer) s
                = (Returned, (s, [AddAlert (VString IncompleteModelSet)]))).
    { apply handleSubmit_stopped. rewrite gate_run, Req.
      now rewrite (not_all_model_parts _ Not_all). }
    split; [exact E |]. rewrite E. apply alert_only_no_fetch.
  - intros tok s imgs R Some_part s'.
    assert (Req : modelRequired s = true).
    { rewrite (reachable_flag tok s R). now apply recomputeRequirement_true. }
    rewrite !gate_run. subst s'. simpl. rewrite Req.
    destruct (_ && _); split; reflexivity.
  - intros tok s R Alert Some_part.
    assert (Req : modelRequired s = true).
    { rewrite (reachable_flag tok s R). now apply recomputeRequirement_true. }
    rewrite gate_run, Req in Alert.
    destruct (_ && _); simpl in Alert; [contradiction |].
    destruct Alert as [E | []]. discriminate E.
  - intros tok s R Alert.
    apply recomputeRequirement_true. rewrite <- (reachable_flag tok s R).
    rewrite gate_run in Alert.
    destruct (modelRequired s); [reflexivity |].
    destruct (images _); simpl in Alert; [| contradiction].
    destruct Alert as [E | []]. discriminate E.
Qed.

(** Object and texture attached, material missing, two photographs
    added. *)
Lemma images_never_replace_model_parts_witness :
  let s := dispatch (InputChange (F_images sample_images))
             (dispatch (InputChange (F_texture (VFile (mkFile "olla.jpg" 7000))))
                (dispatch (InputChange (F_object (VFile (mkFile "olla.obj" 90210))))
                   (mount "t0k3n"))) in
  let down := FetchRejects (mkError "Failed to fetch") in
  images (newObjectAttributes s) = sample_images
  /\ run (handleSubmit down) s
     = (Returned, (s, [AddAlert (VString IncompleteModelSet)]))
  /\ ~ attempts_fetch (effects (run (handleSubmit down) s)).
Proof.
  intros s down. split; [reflexivity |].
  apply (proj1 images_never_replace_model_parts "t0k3n" s down).
  - do 3 apply reach_dispatch. apply reach_mount.
  - left. exists (mkFile "olla.obj" 90210). reflexivity.
  - intros (_ & _ & [f E]). vm_compute in E. discriminate E.
Defined.

(** *** Failure paths of the upload *)

(** The server refuses, or its body is not JSON: the inner [catch] turns
    the error into an alert and the draft stays as it was. *)
Lemma upload_rejection_is_surfaced (s : State) (response : Dom.response upload_body) :
  passes_gate s ->
  ok response = false \/ (exists e, json response = JsonFails e) ->
  let r := run (handleSubmit (FetchResolves response)) s in
  outcome r = Normal tt
  /\ final_state r = s
  /\ surfaces_message (effects r).
Proof.
  intros P Bad r. subst r.
  rewrite (handleSubmit_passed _ s (passes_gate_run s P)).
  unfold on_response, try_catch, bind, response_json, when,
    outcome, final_state, effects, surfaces_message.
  destruct response as [okb [e | [d [art |]]]]; simpl in *.
  - destruct okb; simpl; repeat split; eexists; right; left; reflexivity.
  - destruct Bad as [-> | [e E]]; [| discriminate E].
    simpl. repeat split; eexists; right; left; reflexivity.
  - destruct Bad as [-> | [e E]]; [| discriminate E].
    simpl. repeat split; eexists; right; left; reflexivity.
Qed.

(** The server message is shown as it came. *)
Lemma upload_rejection_detail_verbatim (s : State) (m : string) (d : option artifact) :
  passes_gate s ->
  effects (run (handleSubmit
                  (FetchResolves (mkResponse false (JsonBody (mkUploadBody (VString m) d))))) s)
  = [ Fetch (upload_request (token s) (assemble (newObjectAttributes s)));
      AddAlert (VString m) ].
Proof.
  intros P. rewrite (handleSubmit_passed _ s (passes_gate_run s P)).
  reflexivity.
Qed.

(** The gate's own failures surface a message and keep the draft. *)
Lemma upload_validation_is_surfaced (s : State) (answer : fetch_result upload_body) :
  ~ passes_gate s ->
  let r := run (handleSubmit answer) s in
  outcome r = Returned
  /\ final_state r = s
  /\ surfaces_message (effects r)
  /\ ~ attempts_fetch (effects r).
Proof.
  intros NP r. subst r.
  assert (G : exists m, run (gate s) s = (Returned, (s, [AddAlert m]))).
  { unfold passes_gate, outcome in NP. rewrite gate_run in *.
    destruct (modelRequired s);
      [ destruct (_ && _) | destruct (images _) ]; simpl in NP;
      try congruence; eexists; reflexivity. }
  destruct G as [m G]. rewrite (handleSubmit_stopped answer s _ G).
  repeat split.
  - exists m. now left.
  - apply alert_only_no_fetch.
Qed.

(** A transport failure of the upload is not caught anywhere in
    [handleSubmit]. *)
Lemma upload_transport_failure_escapes (s : State) (e : js_error) :
  passes_gate s ->
  run (handleSubmit (FetchRejects e)) s
  = (Thrown e,
     (s, [Fetch (upload_request (token s) (assemble (newObjectAttributes s)))])).
Proof.
  intros P. now rewrite (handleSubmit_passed _ s (passes_gate_run s P)).
Qed.

(** C8 (upload, transport failure). The server cannot be reached while
    the sample draft, which passes the gate, is submitted: the request
    goes out, the rejection of [fetch] leaves [handleSubmit] uncaught and
    [addAlert] is never called.  The draft itself is kept. *)
Theorem upload_transport_failure_shows_no_message :
  let r := run (handleSubmit (FetchRejects (mkError "Failed to fetch"))) sample_state in
  passes_gate sample_state
  /\ outcome r = Thrown (mkError "Failed to fetch")
  /\ final_state r = sample_state
  /\ effects r = [Fetch (upload_request "t0k3n" (assemble sample_attributes))]
  /\ ~ surfaces_message (effects r).
Proof.
  repeat split.
  intros [m [E | []]]. discriminate E.
Qed.

(** The accepted upload: success alert, then the detail page of the new
    artifact. *)
Example upload_accepted_opens_detail :
  run (handleSubmit
         (FetchResolves
            (mkResponse true
               (JsonBody (mkUploadBody VUndefined (Some (mkArtifact (VNumber 42)))))))) sample_state
  = (Normal tt,
     (sample_state,
      [ Fetch (upload_request "t0k3n" (assemble sample_attributes));
        AddAlert (VString "¡Objeto creado con éxito!");
        Navigate (ToPath "/catalog/42") false ])).
Proof. reflexivity. Qed.

End CreateArtifactProofs.

(** * Properties of the login page *)

Module LoginProofs.
Import Login.

Lemma resolveDestination_run (f : state_from) (s : State) (l : list effect) :
  resolveDestination f (s, l) =
  (Normal tt,
   (s, l ++ [ ConsoleLog "from" (from_or_root f);
              if is_not_root (from_or_root f)
                 && includes (to_string (pathname_of (from_or_root f)))
                      reset_password_segment
              then Navigate (ToPath "/") false
              else Navigate (from_or_root f) true ])).
Proof.
  unfold resolveDestination, bind, emit. simpl.
  destruct (is_not_root _ && includes _ _); simpl;
    now rewrite <- app_assoc.
Qed.

(** After a granted login: request, token, then the redirect. *)
Lemma handleSubmit_granted (f : state_from) (d : jsval) (t : string) (s : State) :
  run (handleSubmit f (granted d t)) s =
  resolveDestination f
    (s, [Fetch (auth_request (formValues s)); SetToken (strip_dquotes t)]).
Proof.
  unfold run, handleSubmit, granted, try_catch, bind, get, fetch, emit,
    response_json, when. simpl.
  rewrite resolveDestination_run. reflexivity.
Qed.

(** C5, as the code has it. With no [from] recorded in the location
    state, a granted login navigates to the root route [/], replacing the
    current history entry. *)
Theorem no_origin_goes_to_root (d : jsval) (t : string) (s : State) :
  run (handleSubmit NoFrom (granted d t)) s
  = (Normal tt,
     (s, [ Fetch (auth_request (formValues s));
           SetToken (strip_dquotes t);
           ConsoleLog "from" (ToPath "/");
           Navigate (ToPath "/") true ])).
Proof.
  rewrite handleSubmit_granted, resolveDestination_run. reflexivity.
Qed.

(** C5, as the claim has it, fails: with no [from] recorded no navigation
    to [/catalog] takes place. *)
Lemma no_origin_does_not_go_to_catalog :
  let r := run (handleSubmit NoFrom (granted VUndefined "abc123")) initialState in
  effects r
  = [ Fetch (auth_request (formValues initialState));
      SetToken "abc123";
      ConsoleLog "from" (ToPath "/");
      Navigate (ToPath "/") true ]
  /\ ~ (exists replace, In (Navigate (ToPath "/catalog") replace) (effects r)).
Proof.
  split; [reflexivity |].
  intros [replace In_nav]. simpl in In_nav.
  repeat (destruct In_nav as [E | In_nav]; [discriminate E |]).
  exact In_nav.
Qed.

(** C6, as the code has it. The segment that is tested is
    [/reset-password]: when the recorded [from] is a location whose
    pathname contains it, a granted login navigates to the root route [/],
    without [replace], and not to the recorded location. *)
Theorem reset_password_origin_goes_to_root
    (l : Location) (p : string) (d : jsval) (t : string) (s : State) :
  pathname l = Some p ->
  includes p reset_password_segment = true ->
  run (handleSubmit (FromLocation l) (granted d t)) s
  = (Normal tt,
     (s, [ Fetch (auth_request (formValues s));
           SetToken (strip_dquotes t);
           ConsoleLog "from" (ToLocation l);
           Navigate (ToPath "/") false ]))
  /\ forall replace,
      ~ In (Navigate (ToLocation l) replace)
           (effects (run (handleSubmit (FromLocation l) (granted d t)) s)).
Proof.
  intros Path Inc.
  assert (E : run (handleSubmit (FromLocation l) (granted d t)) s
              = (Normal tt,
                 (s, [ Fetch (auth_request (formValues s));
                       SetToken (strip_dquotes t);
                       ConsoleLog "from" (ToLocation l);
                       Navigate (ToPath "/") false ]))).
  { rewrite handleSubmit_granted, resolveDestination_run. simpl.
    rewrite Path. simpl. now rewrite Inc. }
  split; [exact E |].
  intros replace In_nav. rewrite E in In_nav. simpl in In_nav.
  repeat (destruct In_nav as [N | In_nav]; [discriminate N |]).
  exact In_nav.
Qed.

Lemma reset_password_origin_goes_to_root_witness :
  let l := mkLocation (Some "/reset-password/abc") "" "" in
  run (handleSubmit (FromLocation l) (granted VUndefined "abc123")) initialState
  = (Normal tt,
     (initialState,
      [ Fetch (auth_request (formValues initialState));
        SetToken "abc123";
        ConsoleLog "from" (ToLocation l);
        Navigate (ToPath "/") false ]))
  /\ forall replace,
      ~ In (Navigate (ToLocation l) replace)
           (effects (run (handleSubmit (FromLocation l) (granted VUndefined "abc123"))
                       initialState)).
Proof.
  intros l.
  apply (reset_password_origin_goes_to_root l "/reset-password/abc"
           VUndefined "abc123" initialState); reflexivity.
Defined.

(** C6, as the claim has it, fails: an origin on the password-recovery
    page itself, whose pathname contains the password-recovery segment,
    is gone back to; nothing navigates to [/] or to [/catalog]. *)
Lemma password_recovery_origin_is_not_forced_home :
  let l := mkLocation (Some "/password-recovery") "" "" in
  let r := run (handleSubmit (FromLocation l) (granted VUndefined "abc123"))
               initialState in
  includes "/password-recovery" LoginPage.password_recovery_route = true
  /\ effects r
     = [ Fetch (auth_request (formValues initialState));
         SetToken "abc123";
         ConsoleLog "from" (ToLocation l);
         Navigate (ToLocation l) true ]
  /\ ~ (exists replace,
          In (Navigate (ToPath "/") replace) (effects r)
          \/ In (Navigate (ToPath "/catalog") replace) (effects r)).
Proof.
  split; [reflexivity |]. split; [reflexivity |].
  intros [replace [In_nav | In_nav]]; simpl in In_nav;
    repeat (destruct In_nav as [E | In_nav]; [discriminate E |]);
    exact In_nav.
Qed.




(** *** Failure paths of the login *)

(** Every refused login ends inside [handleSubmit] with one alert; the
    form values stay, no token is stored and nothing navigates. *)
Lemma login_failure_is_surfaced
    (f : state_from) (answer : fetch_result auth_body) (s : State) :
  refused answer ->
  let r := run (handleSubmit f answer) s in
  (outcome r = Normal tt \/ outcome r = Returned)
  /\ final_state r = s
  /\ exists m, effects r = [Fetch (auth_request (formValues s)); AddAlert m].
Proof.
  intros Bad r. subst r.
  unfold run, handleSubmit, try_catch, bind, get, fetch, emit, response_json,
    when, return_, throw, outcome, final_state, effects.
  destruct answer as [e | [okb [e | [d tok]]]]; simpl in *.
  - repeat split; [now left | eexists; reflexivity].
  - repeat split; [now left | eexists; reflexivity].
  - destruct Bad as [-> | [e E]]; [| discriminate E].
    simpl. repeat split; [now right | eexists; reflexivity].
Qed.

(** The server's [detail] is shown as it came. *)
Lemma login_rejection_detail_verbatim
    (f : state_from) (d : jsval) (tok : option string) (s : State) :
  run (handleSubmit f (FetchResolves (mkResponse false (JsonBody (mkAuthBody d tok))))) s
  = (Returned, (s, [Fetch (auth_request (formValues s)); AddAlert d])).
Proof. reflexivity. Qed.

(** The test is on [/reset-password] only: the recovery page itself is a
    destination like any other. *)
Example password_recovery_origin_is_restored :
  effects (run (handleSubmit
                  (FromLocation (mkLocation (Some "/password-recovery") "" ""))
                  (granted VUndefined "abc123")) initialState)
  = [ Fetch (auth_request (formValues initialState));
      SetToken "abc123";
      ConsoleLog "from" (ToLocation (mkLocation (Some "/password-recovery") "" ""));
      Navigate (ToLocation (mkLocation (Some "/password-recovery") "" "")) true ].
Proof. reflexivity. Qed.

(** Quotes around the token are dropped before it is stored. *)
Example token_is_unquoted :
  strip_dquotes (String dquote ("abc123" ++ String dquote "")) = "abc123".
Proof. reflexivity. Qed.

End LoginProofs.

(** * Further properties of the artifact form *)

Module CreateArtifactPageProofs.
Import Log CreateArtifactPage CreateArtifact CreateArtifactProofs.

Lemma jsval_eqb_refl (v : jsval) : jsval_eqb v v = true.
Proof.
  destruct v as [| | s | n | | [n z]]; simpl; try reflexivity.
  - apply String.eqb_refl.
  - apply Z.eqb_refl.
  - unfold file_eqb. simpl. now rewrite String.eqb_refl, N.eqb_refl.
Qed.

Lemma deps_same_slots (a b : Attributes) :
  object b = object a -> texture b = texture a -> material b = material a ->
  deps_changed a b = false.
Proof.
  unfold deps_changed. intros -> -> ->. now rewrite !jsval_eqb_refl.
Qed.

(** X1. In a state the form can be in, the gate lets a submission through
    exactly when the three model files are all attached, or none is and
    there is at least one image. *)
Theorem reachable_gate_iff (tok : string) (s : State) :
  reachable tok s ->
  (passes_gate s <->
   all_model_parts (newObjectAttributes s)
   \/ (~ some_model_part (newObjectAttributes s)
       /\ images (newObjectAttributes s) <> [])).
Proof.
  intros R. rewrite passes_gate_iff, (reachable_flag tok s R).
  split.
  - intros [[_ All] | [No Img]]; [now left | right].
    split; [| exact Img].
    intros Some_part. apply recomputeRequirement_true in Some_part. congruence.
  - intros [All | [No Img]].
    + left. split; [| exact All].
      apply recomputeRequirement_true. left. apply All.
    + right. split; [| exact Img].
      destruct (recomputeRequirement _) eqn:E; [| reflexivity].
      apply recomputeRequirement_true in E. contradiction.
Qed.

(** The three model files attached one after the other, no image: the
    submission goes through. *)
Lemma reachable_gate_iff_witness :
  let s := dispatch (InputChange (F_material (VFile (mkFile "olla.mtl" 512))))
             (dispatch (InputChange (F_texture (VFile (mkFile "olla.jpg" 7000))))
                (dispatch (InputChange (F_object (VFile (mkFile "olla.obj" 90210))))
                   (mount "t0k3n"))) in
  images (newObjectAttributes s) = [] /\ passes_gate s.
Proof.
  intros s. split; [reflexivity |].
  apply (proj2 (reachable_gate_iff "t0k3n" s
                  (reach_dispatch _ _ _
                     (reach_dispatch _ _ _
                        (reach_dispatch _ _ _ (reach_mount "t0k3n")))))).
  left. repeat split; eexists; reflexivity.
Defined.

(** X2. The gate looks at the flag, the three model slots and the images
    and at nothing else: whatever the thumbnail, description, shape,
    culture and tags are replaced by - an empty description, a shape
    never selected - its outcome and its alert are the same. *)
Theorem gate_ignores_descriptive_fields
    (s : State) (th : jsval) (d : string) (sh cu : MetadataOption)
    (tg : list MetadataOption) :
  let a := newObjectAttributes s in
  let s' := setNewObjectAttributes
              (mkAttributes (object a) (texture a) (material a) th (images a)
                 d sh cu tg) s in
  outcome (run (gate s') s') = outcome (run (gate s) s)
  /\ effects (run (gate s') s') = effects (run (gate s) s).
Proof.
  intros a s'. rewrite !gate_run. subst s' a. simpl.
  destruct (modelRequired s);
    [ destruct (_ && _) | destruct (images _) ]; split; reflexivity.
Qed.

(** X3. Submitting never changes the page state, whatever the gate and
    the network do: the draft is not cleared, the flag and the token
    stay, and the effect has nothing to run again. *)
Theorem submit_leaves_state (answer : fetch_result upload_body) (s : State) :
  final_state (run (handleSubmit answer) s) = s
  /\ dispatch (Submit answer) s = s.
Proof.
  split; [apply handleSubmit_state |].
  unfold dispatch. simpl handler_of. rewrite handleSubmit_state.
  unfold render_effects.
  now rewrite (deps_same_slots _ _ eq_refl eq_refl eq_refl).
Qed.

(** X4. An accepted upload shows the success alert and then navigates to
    [/catalog/<id>] of the new artifact, pushing a history entry.  The id
    is one that prints in plain digits: a string, or a number that is a
    safe integer. *)
Theorem upload_accepted_navigates_to_new_artifact
    (s : State) (d newArtifactId : jsval) :
  passes_gate s ->
  Json.safe_number newArtifactId = true ->
  run (handleSubmit
         (FetchResolves
            (mkResponse true
               (JsonBody (mkUploadBody d (Some (mkArtifact newArtifactId))))))) s
  = (Normal tt,
     (s, [ Fetch (upload_request (token s) (assemble (newObjectAttributes s)));
           AddAlert (VString "¡Objeto creado con éxito!");
           Navigate (ToPath ("/catalog/" ++ to_string newArtifactId)) false ])).
Proof.
  intros P _. rewrite (handleSubmit_passed _ s (passes_gate_run s P)).
  reflexivity.
Qed.

Lemma upload_accepted_navigates_to_new_artifact_witness :
  effects (run (handleSubmit
                  (FetchResolves
                     (mkResponse true
                        (JsonBody (mkUploadBody VUndefined
                                     (Some (mkArtifact (VNumber 1207)))))))) sample_state)
  = [ Fetch (upload_request "t0k3n" (assemble sample_attributes));
      AddAlert (VString "¡Objeto creado con éxito!");
      Navigate (ToPath "/catalog/1207") false ].
Proof.
  exact (f_equal effects
           (upload_accepted_navigates_to_new_artifact sample_state VUndefined
              (VNumber 1207) (eq_refl : passes_gate sample_state) eq_refl)).
Defined.

(** X5. What one submission does, counted.  Past the gate there is
    exactly one request; an alert unless the request itself failed to
    reach the server; a navigation exactly when the answer is 2xx with a
    JSON body that has [data].  Stopped at the gate there is one alert
    and nothing else. *)
Theorem upload_effects_by_answer (s : State) (answer : fetch_result upload_body) :
  let l := effects (run (handleSubmit answer) s) in
  (passes_gate s ->
   count_fetch l = 1
   /\ count_alert l = match answer with FetchRejects _ => 0 | FetchResolves _ => 1 end
   /\ count_navigate l = if upload_accepted answer then 1 else 0)
  /\ (~ passes_gate s ->
      count_fetch l = 0 /\ count_alert l = 1 /\ count_navigate l = 0).
Proof.
  intros l. subst l. split.
  - intros P. rewrite (handleSubmit_passed _ s (passes_gate_run s P)).
    destruct answer as [e | [okb j]];
      [| destruct okb, j as [e | [d [art |]]]];
      repeat split; reflexivity.
  - intros NP.
    assert (G : exists m, run (gate s) s = (Returned, (s, [AddAlert m]))).
    { unfold passes_gate, outcome in NP. rewrite gate_run in *.
      destruct (modelRequired s);
        [ destruct (_ && _) | destruct (images _) ]; simpl in NP;
        try congruence; eexists; reflexivity. }
    destruct G as [m G]. rewrite (handleSubmit_stopped answer s _ G).
    repeat split.
Qed.

(** A 2xx answer whose body has no [data]: the request went out, an
    alert shows, nothing navigates; and the draft as mounted, stopped at
    the gate. *)
Lemma upload_effects_by_answer_witness :
  let odd := FetchResolves (mkResponse true (JsonBody (mkUploadBody VUndefined None))) in
  (count_fetch (effects (run (handleSubmit odd) sample_state)) = 1
   /\ count_alert (effects (run (handleSubmit odd) sample_state)) = 1
   /\ count_navigate (effects (run (handleSubmit odd) sample_state)) = 0)
  /\ (count_fetch (effects (run (handleSubmit odd) (mount "t0k3n"))) = 0
      /\ count_alert (effects (run (handleSubmit odd) (mount "t0k3n"))) = 1
      /\ count_navigate (effects (run (handleSubmit odd) (mount "t0k3n"))) = 0).
Proof.
  intros odd. split.
  - exact (proj1 (upload_effects_by_answer sample_state odd)
             (eq_refl : passes_gate sample_state)).
  - apply (proj2 (upload_effects_by_answer (mount "t0k3n") odd)).
    intros P. discriminate P.
Defined.

(** Over object bodies the parsed handler is the handler. *)
Lemma upload_parsed_of_object
    (answer : fetch_result upload_body) (s : State) :
  run (handleSubmit_parsed (Json.of_object answer)) s
  = run (handleSubmit answer) s.
Proof.
  unfold run, handleSubmit_parsed, handleSubmit, bind, get. simpl.
  destruct (gate s (s, [])) as [[[] | | e] w]; try reflexivity.
  destruct answer as [e | [okb [e | [d [art |]]]]]; try destruct okb; reflexivity.
Qed.

Lemma handleSubmit_parsed_passed
    (answer : fetch_result (option upload_body)) (s : State) :
  run (gate s) s = (Normal tt, (s, [])) ->
  run (handleSubmit_parsed answer) s =
  match answer with
  | FetchRejects e =>
      (Thrown e,
       (s, [Fetch (upload_request (token s) (assemble (newObjectAttributes s)))]))
  | FetchResolves response =>
      on_response_parsed response
        (s, [Fetch (upload_request (token s) (assemble (newObjectAttributes s)))])
  end.
Proof.
  unfold run, handleSubmit_parsed, bind, get, fetch, emit. simpl. intros ->.
  destruct answer; reflexivity.
Qed.

(** X6. What a non-2xx answer to the upload shows, for a draft that
    passed the gate: the [detail] of the body when that is a string, as
    it came; the empty string when the body has no [detail]; and the
    engine's [TypeError] text when the body is [null], since reading
    [detail] of it throws.  In each case that one alert follows the
    request and nothing else happens. *)
Theorem upload_rejection_shows_detail (s : State) :
  passes_gate s ->
  let sent := Fetch (upload_request (token s) (assemble (newObjectAttributes s))) in
  (forall m art,
      run (handleSubmit_parsed
             (FetchResolves
                (mkResponse false (JsonBody (Some (mkUploadBody (VString m) art)))))) s
      = (Normal tt, (s, [sent; AddAlert (VString m)])))
  /\ (forall art,
        run (handleSubmit_parsed
               (FetchResolves
                  (mkResponse false (JsonBody (Some (mkUploadBody VUndefined art)))))) s
        = (Normal tt, (s, [sent; AddAlert (VString "")])))
  /\ run (handleSubmit_parsed (FetchResolves (mkResponse false (JsonBody None)))) s
     = (Normal tt,
        (s, [sent; AddAlert (VString (message (Json.null_property_error "detail")))])).
Proof.
  intros P sent. subst sent.
  repeat split; intros;
    now rewrite (handleSubmit_parsed_passed _ s (passes_gate_run s P)).
Qed.

Lemma upload_rejection_shows_detail_witness :
  run (handleSubmit_parsed
         (FetchResolves
            (mkResponse false
               (JsonBody (Some (mkUploadBody (VString "Formato no permitido") None))))))
      sample_state
  = (Normal tt,
     (sample_state,
      [ Fetch (upload_request "t0k3n" (assemble sample_attributes));
        AddAlert (VString "Formato no permitido") ]))
  /\ run (handleSubmit_parsed (FetchResolves (mkResponse false (JsonBody None))))
         sample_state
     = (Normal tt,
        (sample_state,
         [ Fetch (upload_request "t0k3n" (assemble sample_attributes));
           AddAlert (VString "Cannot read properties of null (reading 'detail')") ])).
Proof.
  destruct (upload_rejection_shows_detail sample_state
              (eq_refl : passes_gate sample_state)) as (Str & _ & Null).
  split; [exact (Str "Formato no permitido" None) | exact Null].
Defined.

Lemma getAll_cons (k key : string) (v : jsval) (fd : FormData) :
  getAll k ((key, v) :: fd)
  = if String.eqb key k then v :: getAll k fd else getAll k fd.
Proof.
  unfold getAll. cbn [filter fst]. destruct (String.eqb key k); reflexivity.
Qed.

(** The append log, name by name. *)
Lemma assemble_getAll (a : Attributes) :
  getAll "model[new_object]" (assemble a) = [object a]
  /\ getAll "model[new_texture]" (assemble a) = [texture a]
  /\ getAll "model[new_material]" (assemble a) = [material a]
  /\ getAll "new_thumbnail" (assemble a) = [thumbnail a]
  /\ getAll "new_images" (assemble a) = images a
  /\ getAll "description" (assemble a) = [VString (description a)]
  /\ getAll "id_shape" (assemble a) = [id (shape a)]
  /\ getAll "id_culture" (assemble a) = [id (culture a)]
  /\ getAll "id_tags" (assemble a) = map id (tags a)
  /\ (forall k, ~ In k field_names -> getAll k (assemble a) = []).
Proof.
  rewrite assemble_entries.
  repeat split.
  1-4, 6-8: rewrite !getAll_app, !getAll_other_key by reflexivity; reflexivity.
  - rewrite !getAll_app, getAll_same_key, (getAll_other_key _ "id_tags") by reflexivity.
    rewrite map_id. cbn. now rewrite app_nil_r.
  - rewrite !getAll_app, getAll_same_key, (getAll_other_key _ "new_images") by reflexivity.
    reflexivity.
  - intros k Out.
    assert (N : forall key, In key field_names -> String.eqb key k = false).
    { intros key Hin. apply String.eqb_neq. intros ->. contradiction. }
    rewrite !getAll_app.
    rewrite !getAll_other_key by (apply N; simpl; tauto).
    rewrite !getAll_cons.
    rewrite !N by (simpl; tauto).
    reflexivity.
Qed.

Lemma entry_value_files (l : list jsval) :
  Forall (fun v => instanceof_File v = true) l -> map entry_value l = l.
Proof.
  induction 1 as [| v l Hv _ IH]; simpl; [reflexivity |].
  rewrite IH. destruct v; try discriminate Hv. reflexivity.
Qed.

(** X7. What the server can read back from the body of a draft the
    widgets produced.  [getAll] returns the image files in array order;
    the tag ids in selection order, the shape id and the culture id, each
    as a string; the description; for each model slot and the thumbnail
    the file, or the text [[object Object]] when the slot holds the
    placeholder; and nothing under any name outside the nine.  The body
    has seven entries plus one per image and per tag. *)
Theorem assemble_round_trip (a : Attributes) :
  widget_draft a ->
  formData_getAll "new_images" (assemble a) = images a
  /\ formData_getAll "id_tags" (assemble a)
     = map (fun tag => VString (to_string (id tag))) (tags a)
  /\ formData_getAll "description" (assemble a) = [VString (description a)]
  /\ formData_getAll "id_shape" (assemble a) = [VString (to_string (id (shape a)))]
  /\ formData_getAll "id_culture" (assemble a) = [VString (to_string (id (culture a)))]
  /\ formData_getAll "model[new_object]" (assemble a)
     = [if instanceof_File (object a) then object a else VString "[object Object]"]
  /\ formData_getAll "model[new_texture]" (assemble a)
     = [if instanceof_File (texture a) then texture a else VString "[object Object]"]
  /\ formData_getAll "model[new_material]" (assemble a)
     = [if instanceof_File (material a) then material a else VString "[object Object]"]
  /\ formData_getAll "new_thumbnail" (assemble a)
     = [if instanceof_File (thumbnail a) then thumbnail a else VString "[object Object]"]
  /\ (forall k, ~ In k field_names -> formData_getAll k (assemble a) = [])
  /\ length (assemble a) = 7 + length (images a) + length (tags a).
Proof.
  intros (So & St & Sm & Sth & Files & Ssh & Scu & Stg).
  destruct (assemble_getAll a) as (Eo & Et & Em & Eth & Ei & Ed & Esh & Ecu & Etg & Out).
  unfold formData_getAll.
  rewrite Eo, Et, Em, Eth, Ei, Ed, Esh, Ecu, Etg.
  repeat split.
  - now apply entry_value_files.
  - rewrite map_map. apply map_ext_in. intros tag Hin.
    rewrite Forall_forall in Stg. specialize (Stg tag Hin).
    destruct (id tag); try discriminate Stg; reflexivity.
  - simpl. destruct (id (shape a)); try discriminate Ssh; reflexivity.
  - simpl. destruct (id (culture a)); try discriminate Scu; reflexivity.
  - simpl. destruct (object a); try discriminate So; reflexivity.
  - simpl. destruct (texture a); try discriminate St; reflexivity.
  - simpl. destruct (material a); try discriminate Sm; reflexivity.
  - simpl. destruct (thumbnail a); try discriminate Sth; reflexivity.
  - intros k Hk. now rewrite (Out k Hk).
  - rewrite assemble_entries, !length_app, !length_map. simpl. lia.
Qed.

Lemma sample_widget_draft : widget_draft sample_attributes.
Proof.
  unfold widget_draft, sample_attributes, sample_images, sample_tags. simpl.
  repeat split; try reflexivity; repeat constructor.
Defined.

Lemma assemble_round_trip_witness :
  formData_getAll "new_images" (assemble sample_attributes) = sample_images
  /\ formData_getAll "id_tags" (assemble sample_attributes)
     = [VString "7"; VString "2"; VString "11"]
  /\ formData_getAll "model[new_object]" (assemble sample_attributes)
     = [VString "[object Object]"]
  /\ formData_getAll "tags" (assemble sample_attributes) = []
  /\ length (assemble sample_attributes) = 12.
Proof.
  destruct (assemble_round_trip sample_attributes sample_widget_draft)
    as (Img & Tg & _ & _ & _ & Obj & _ & _ & _ & Out & Len).
  split; [exact Img | split; [exact Tg | split; [exact Obj | split; [| exact Len]]]].
  apply Out. simpl.
  intros I. repeat (destruct I as [N | I]; [discriminate N |]). exact I.
Defined.

(** X8. An edit of the thumbnail, the images or a descriptive field
    replaces that field only: the three model slots and the flag are as
    before and the effect does not run. *)
Theorem non_model_edit_keeps_requirement (f : field) (s : State) :
  model_slot_edit f = false ->
  let s' := dispatch (InputChange f) s in
  s' = setNewObjectAttributes (spread_with (newObjectAttributes s) f) s
  /\ modelRequired s' = modelRequired s
  /\ object (newObjectAttributes s') = object (newObjectAttributes s)
  /\ texture (newObjectAttributes s') = texture (newObjectAttributes s)
  /\ material (newObjectAttributes s') = material (newObjectAttributes s).
Proof.
  intros Other s'.
  assert (E : s' = setNewObjectAttributes (spread_with (newObjectAttributes s) f) s).
  { subst s'. unfold dispatch, render_effects.
    change (final_state (run (handler_of (InputChange f)) s))
      with (setNewObjectAttributes (spread_with (newObjectAttributes s) f) s).
    rewrite deps_same_slots; [reflexivity | | |];
      destruct f; try discriminate Other; reflexivity. }
  rewrite E. destruct f; try discriminate Other; repeat split.
Qed.

(** Two model files attached, then the description typed: the flag
    stays on. *)
Lemma non_model_edit_keeps_requirement_witness :
  let s := dispatch (InputChange (F_texture (VFile (mkFile "olla.jpg" 7000))))
             (dispatch (InputChange (F_object (VFile (mkFile "olla.obj" 90210))))
                (mount "t0k3n")) in
  let s' := dispatch (InputChange (F_description "Olla con asa")) s in
  modelRequired s' = true
  /\ description (newObjectAttributes s') = "Olla con asa".
Proof.
  intros s s'. split.
  - exact (proj1 (proj2 (non_model_edit_keeps_requirement
                           (F_description "Olla con asa") s eq_refl))).
  - exact (f_equal (fun x => description (newObjectAttributes x))
             (proj1 (non_model_edit_keeps_requirement
                       (F_description "Olla con asa") s eq_refl))).
Defined.

(** X9. Cancelling navigates once and does nothing else.  When the
    button reads [Volver al catálogo] it goes to [/catalog] and pushes an
    entry; when it reads [Cancelar] it goes to the recorded origin and
    replaces the entry.  An empty string recorded as origin counts as no
    origin. *)
Theorem cancel_returns_or_falls_back (f : state_from) (s : State) :
  exists to,
    run (handleCancel f) s = (Normal tt, (s, [Navigate to (goBack f)]))
    /\ (cancel_label f = "Volver al catálogo" <-> goBack f = false)
    /\ (cancel_label f = "Cancelar" <-> goBack f = true)
    /\ (goBack f = false ->
        to = ToPath "/catalog" /\ (f = Login.NoFrom \/ f = Login.FromPath ""))
    /\ (goBack f = true ->
        (exists p, f = Login.FromPath p /\ p <> "" /\ to = ToPath p)
        \/ (exists l, f = Login.FromLocation l /\ to = ToLocation l)).
Proof.
  exists (cancel_target f).
  split; [reflexivity |].
  unfold cancel_label, cancel_target.
  destruct f as [| p | l]; simpl.
  - repeat split; try discriminate; auto.
  - destruct (String.eqb p "") eqn:E; simpl.
    + apply String.eqb_eq in E. subst p.
      repeat split; try discriminate; auto.
    + apply String.eqb_neq in E.
      repeat split; try discriminate; auto.
      intros _. left. now exists p.
  - repeat split; try discriminate; auto.
    intros _. right. now exists l.
Qed.

(** Reached from the catalog, which recorded itself as a string. *)
Lemma cancel_returns_or_falls_back_witness :
  exists to,
    run (handleCancel (Login.FromPath "/catalog/42")) sample_state
    = (Normal tt, (sample_state, [Navigate to true]))
    /\ to = ToPath "/catalog/42".
Proof.
  destruct (cancel_returns_or_falls_back (Login.FromPath "/catalog/42") sample_state)
    as (to & E & _ & _ & _ & Back).
  exists to. split; [exact E |].
  destruct (Back eq_refl) as [(p & F & _ & ->) | (l & F & _)].
  - now injection F as <-.
  - discriminate F.
Defined.

(** X10. What the upload buttons show.  Once the effect of the last
    update has run, the three model buttons carry the star and
    [isRequired] exactly when a model file is attached.  In the render
    between a handler and the effect the buttons are still those of the
    draft before the update, so a first file attached is shown without
    the star for that one render.  Every render is one of the two; the
    thumbnail and images buttons are never marked. *)
Theorem required_marks_follow_model_parts (tok : string) :
  (forall s,
      reachable tok s ->
      map name (upload_buttons s)
      = ["object"; "texture"; "material"; "thumbnail"; "images"]
      /\ (some_model_part (newObjectAttributes s) ->
          map label (upload_buttons s)
          = ["Objeto *"; "Textura *"; "Material *"; "Miniatura (opcional)";
             "Imágenes (opcional)"]
          /\ map marked_required (upload_buttons s)
             = [true; true; true; false; false])
      /\ (~ some_model_part (newObjectAttributes s) ->
          map label (upload_buttons s)
          = ["Objeto"; "Textura"; "Material"; "Miniatura (opcional)";
             "Imágenes (opcional)"]
          /\ map marked_required (upload_buttons s)
             = [false; false; false; false; false]))
  /\ (forall s ev,
        reachable tok s ->
        upload_buttons (final_state (run (handler_of ev) s)) = upload_buttons s)
  /\ (forall s',
        rendered tok s' ->
        exists s, reachable tok s /\ upload_buttons s' = upload_buttons s).
Proof.
  split; [| split].
  - intros s R. unfold upload_buttons. rewrite (reachable_flag tok s R).
    split; [reflexivity |]. split.
    + intros Some_part. apply recomputeRequirement_true in Some_part.
      rewrite Some_part. split; reflexivity.
    + intros No.
      destruct (recomputeRequirement _) eqn:E.
      * apply recomputeRequirement_true in E. contradiction.
      * split; reflexivity.
  - intros s ev _. unfold upload_buttons. now rewrite handler_keeps_flag.
  - intros s' [s R | s ev R].
    + now exists s.
    + exists s. split; [exact R |].
      unfold upload_buttons. now rewrite handler_keeps_flag.
Qed.

(** The first file, attached to a fresh form: no star in the render
    before the effect, the star once it has run. *)
Lemma required_marks_follow_model_parts_witness :
  let ev := InputChange (F_material (VFile (mkFile "olla.mtl" 512))) in
  let pending := final_state (run (handler_of ev) (mount "t0k3n")) in
  let settled := dispatch ev (mount "t0k3n") in
  material (newObjectAttributes pending) = VFile (mkFile "olla.mtl" 512)
  /\ upload_buttons pending = upload_buttons (mount "t0k3n")
  /\ map label (upload_buttons settled)
     = ["Objeto *"; "Textura *"; "Material *"; "Miniatura (opcional)";
        "Imágenes (opcional)"]
  /\ map marked_required (upload_buttons settled) = [true; true; true; false; false].
Proof.
  intros ev pending settled.
  split; [reflexivity |]. split.
  - exact (proj1 (proj2 (required_marks_follow_model_parts "t0k3n"))
             (mount "t0k3n") ev (reach_mount "t0k3n")).
  - apply (proj1 (proj2 (proj1 (required_marks_follow_model_parts "t0k3n") settled
                           (reach_dispatch _ _ _ (reach_mount "t0k3n"))))).
    right; right. eexists. reflexivity.
Defined.

(** *** The metadata request *)

(** The effect, answer by answer. *)
Lemma metadata_effect_run (answer : fetch_result metadata_body) (p : Page) :
  Mount.run (metadata_effect answer) p =
  let g := Mount.Get ALL_METADATA (Some (token (form p))) in
  let failed m :=
    (Normal tt,
     (setLoading false (setErrors true p), [g; Mount.Alert (VString m)])) in
  match answer with
  | FetchRejects e => (Thrown e, (p, [g]))
  | FetchResolves (mkResponse _ (JsonFails e)) => failed (message e)
  | FetchResolves (mkResponse false (JsonBody b)) =>
      failed (message (new_Error (CreateArtifactPage.detail b)))
  | FetchResolves (mkResponse true (JsonBody b)) =>
      match CreateArtifactPage.data b with
      | None => failed (message (undefined_property_error "shapes"))
      | Some md =>
          (Normal tt,
           (mkPage (form p) false (errors p)
              (shapes md) (cultures md) (CreateArtifactPage.tags md),
            [g]))
      end
  end.
Proof.
  destruct answer as [e | [okb [e | [d [md |]]]]]; try destruct okb; reflexivity.
Qed.

(** X11. On a page that is loading and has no error yet, the three
    selectors come out enabled exactly when the metadata request was
    answered 2xx with a JSON body that has [data]; after any other
    answer, a lost connection included, they are disabled. *)
Theorem selectors_enabled_iff_metadata_delivered
    (answer : fetch_result metadata_body) (p : Page) :
  loading p = true ->
  errors p = false ->
  selectors_disabled (Mount.final_state (Mount.run (metadata_effect answer) p))
  = negb (metadata_delivered answer).
Proof.
  intros L E. rewrite metadata_effect_run. unfold selectors_disabled, Mount.final_state.
  destruct answer as [e | [okb [e | [d [md |]]]]]; try destruct okb; simpl;
    rewrite ?L, ?E; reflexivity.
Qed.

Lemma selectors_enabled_iff_metadata_delivered_witness :
  selectors_disabled
    (Mount.final_state
       (Mount.run
          (metadata_effect
             (FetchResolves
                (mkResponse true
                   (JsonBody (mkMetadataBody VUndefined
                                (Some (mkMetadata [mkOption (VNumber 3) "botella"]
                                         [mkOption (VNumber 5) "diaguita"] [])))))))
          (initialPage "t0k3n")))
  = false.
Proof.
  exact (selectors_enabled_iff_metadata_delivered _ (initialPage "t0k3n")
           eq_refl eq_refl).
Defined.

(** X12. A delivered answer puts the three lists of the body into the
    three option lists, ends loading, shows no alert and leaves the error
    flag and the form alone. *)
Theorem metadata_delivered_fills_options
    (okd : jsval) (md : metadata) (p : Page) :
  Mount.run (metadata_effect
               (FetchResolves (mkResponse true (JsonBody (mkMetadataBody okd (Some md)))))) p
  = (Normal tt,
     ({| form := form p;
         loading := false;
         errors := errors p;
         shapeOptions := shapes md;
         cultureOptions := cultures md;
         tagOptions := CreateArtifactPage.tags md |},
      [Mount.Get ALL_METADATA (Some (token (form p)))])).
Proof. now rewrite metadata_effect_run. Qed.

(** X13. An answer that came but is not a delivery - a non-2xx status, a
    body that is not JSON, a 2xx body without [data] - raises the error
    flag, ends loading, shows exactly one alert and keeps the option
    lists and the form as they were. *)
Theorem metadata_failure_flags_errors
    (response : Dom.response metadata_body) (p : Page) :
  metadata_delivered (FetchResolves response) = false ->
  let r := Mount.run (metadata_effect (FetchResolves response)) p in
  Mount.outcome r = Normal tt
  /\ Mount.final_state r
     = {| form := form p;
          loading := false;
          errors := true;
          shapeOptions := shapeOptions p;
          cultureOptions := cultureOptions p;
          tagOptions := tagOptions p |}
  /\ exists m,
      Mount.log r
      = [ Mount.Get ALL_METADATA (Some (token (form p)));
          Mount.Alert (VString m) ].
Proof.
  intros Bad r. subst r. rewrite metadata_effect_run.
  destruct response as [okb [e | [d [md |]]]]; destruct okb;
    try discriminate Bad; repeat split; eexists; reflexivity.
Qed.

(** The server says 403 with a reason. *)
Lemma metadata_failure_flags_errors_witness :
  let response :=
    mkResponse false (JsonBody (mkMetadataBody (VString "Token inválido") None)) in
  let r := Mount.run (metadata_effect (FetchResolves response)) (initialPage "t0k3n") in
  errors (Mount.final_state r) = true
  /\ Mount.log r
     = [ Mount.Get ALL_METADATA (Some "t0k3n");
         Mount.Alert (VString "Token inválido") ].
Proof.
  intros response r.
  destruct (metadata_failure_flags_errors response (initialPage "t0k3n") eq_refl)
    as (_ & St & _).
  split.
  - exact (f_equal errors St).
  - reflexivity.
Defined.

(** X14. When the metadata request does not reach the server, neither
    the [catch] nor the [finally] runs: the rejection leaves the effect
    uncaught, no alert shows, the page state is untouched, and a page
    that was loading goes on loading with its selectors disabled. *)
Theorem metadata_transport_failure_keeps_loading (e : js_error) (p : Page) :
  Mount.run (metadata_effect (FetchRejects e)) p
  = (Thrown e, (p, [Mount.Get ALL_METADATA (Some (token (form p)))]))
  /\ (forall tok,
        let p' := Mount.final_state
                    (Mount.run (metadata_effect (FetchRejects e)) (initialPage tok)) in
        loading p' = true /\ errors p' = false /\ selectors_disabled p' = true).
Proof.
  split; [now rewrite metadata_effect_run |].
  intros tok p'. subst p'. rewrite metadata_effect_run. repeat split.
Qed.

(** X15. Whatever the answer, the metadata effect sends exactly one
    request - a bearer-authenticated one to the metadata endpoint - first
    of all, and never touches the form: draft, flag and token are as
    before. *)
Theorem metadata_effect_keeps_form
    (answer : fetch_result metadata_body) (p : Page) :
  let r := Mount.run (metadata_effect answer) p in
  form (Mount.final_state r) = form p
  /\ exists rest,
      Mount.log r = Mount.Get ALL_METADATA (Some (token (form p))) :: rest
      /\ forall ep bearer, ~ In (Mount.Get ep bearer) rest.
Proof.
  intros r. subst r. rewrite metadata_effect_run.
  destruct answer as [e | [okb [e | [d [md |]]]]]; try destruct okb;
    (split; [reflexivity |]); eexists; (split; [reflexivity |]);
    intros ep bearer In_get; simpl in In_get;
    repeat (destruct In_get as [N | In_get]; [discriminate N |]);
    exact In_get.
Qed.

End CreateArtifactPageProofs.

(** * Further properties of the login page *)

Module LoginPageProofs.
Import Log LoginPage Login LoginProofs.
Local Open Scope string_scope.

(** *** [includes] and the quote filter *)

Lemma includes_unfold (s sub : string) :
  includes s sub
  = (String.prefix sub s
     || match s with
        | EmptyString => false
        | String _ s' => includes s' sub
        end).
Proof. destruct s; reflexivity. Qed.

Lemma prefix_app (sub b : string) : String.prefix sub (sub ++ b) = true.
Proof.
  induction sub as [| c sub IH]; simpl.
  - now destruct b.
  - destruct (ascii_dec c c); [exact IH | contradiction].
Qed.

Lemma prefix_split (sub s : string) :
  String.prefix sub s = true -> exists b, s = sub ++ b.
Proof.
  revert s. induction sub as [| c sub IH]; intros s P.
  - now exists s.
  - destruct s as [| c' s]; simpl in P; [discriminate |].
    destruct (ascii_dec c c') as [<- |]; [| discriminate].
    destruct (IH s P) as [b ->]. now exists b.
Qed.

(** [includes] is the substring test. *)
Lemma includes_iff (s sub : string) :
  includes s sub = true <-> exists a b, s = a ++ sub ++ b.
Proof.
  split.
  - induction s as [| c s IH]; rewrite includes_unfold, orb_true_iff.
    + intros [P | F]; [| discriminate].
      destruct (prefix_split _ _ P) as [b E]. now exists "", b.
    + intros [P | I].
      * destruct (prefix_split _ _ P) as [b E]. now exists "", b.
      * destruct (IH I) as (a & b & ->). now exists (String c a), b.
  - intros (a & b & ->).
    induction a as [| c a IH]; rewrite includes_unfold.
    + simpl. now rewrite prefix_app.
    + simpl. rewrite IH. apply orb_true_r.
Qed.

Lemma strip_dquotes_chars (t : string) :
  chars (strip_dquotes t)
  = filter (fun c => negb (Ascii.eqb c dquote)) (chars t).
Proof.
  unfold chars. induction t as [| c t IH]; simpl; [reflexivity |].
  destruct (Ascii.eqb c dquote); simpl; now rewrite IH.
Qed.

Lemma strip_dquotes_clean (t : string) :
  ~ In dquote (chars t) -> strip_dquotes t = t.
Proof.
  unfold chars. induction t as [| c t IH]; simpl; [reflexivity |].
  intros Clean.
  destruct (Ascii.eqb c dquote) eqn:E.
  - apply Ascii.eqb_eq in E. subst c. exfalso. apply Clean. now left.
  - rewrite IH; [reflexivity |]. intros I. apply Clean. now right.
Qed.

(** The request always goes first, with the form values of the moment. *)
Lemma handleSubmit_posts_form
    (f : state_from) (answer : fetch_result auth_body) (s : State) :
  exists rest,
    effects (run (handleSubmit f answer) s)
    = Fetch (auth_request (formValues s)) :: rest.
Proof.
  destruct answer as [e | [okb [e | [d [t |]]]]]; try destruct okb;
    try (eexists; reflexivity).
  change (FetchResolves (mkResponse true (JsonBody (mkAuthBody d (Some t)))))
    with (granted d t).
  rewrite handleSubmit_granted, resolveDestination_run.
  eexists. reflexivity.
Qed.

(** X16. What is typed is what is posted: after a change of the username
    and one of the password, in either order, the form holds both, the
    admin email is as before, and a submission posts exactly these two
    as JSON to the auth endpoint, without a bearer token. *)
Theorem typed_credentials_are_posted
    (u p : string) (f : state_from) (answer : fetch_result auth_body) (s : State) :
  let s1 := final_state (run (handleChange (F_password p))
                           (final_state (run (handleChange (F_username u)) s))) in
  let s2 := final_state (run (handleChange (F_username u))
                           (final_state (run (handleChange (F_password p)) s))) in
  s2 = s1
  /\ formValues s1 = {| username := u; password := p |}
  /\ adminEmail s1 = adminEmail s
  /\ exists rest,
      effects (run (handleSubmit f answer) s1)
      = Fetch {| req_endpoint := AUTH;
                 req_method := "POST";
                 req_bearer := None;
                 req_content_type := Some "application/json";
                 req_body := JsonCredentials u p |} :: rest.
Proof.
  intros s1 s2. repeat split.
  destruct (handleSubmit_posts_form f answer s1) as [rest E].
  exists rest. exact E.
Qed.

(** X17. What one login attempt does, counted.  There is always exactly
    one request, the form values are never changed and nothing is thrown
    out of the handler.  If the answer is 2xx with a JSON body that has a
    token, one token is stored, one navigation follows and no alert
    shows; on every other answer there is one alert, no token and no
    navigation. *)
Theorem login_effects_by_answer
    (f : state_from) (answer : fetch_result auth_body) (s : State) :
  let r := run (handleSubmit f answer) s in
  final_state r = s
  /\ (outcome r = Normal tt \/ outcome r = Returned)
  /\ count_fetch (effects r) = 1
  /\ count_setToken (effects r) = (if login_granted answer then 1 else 0)
  /\ count_navigate (effects r) = (if login_granted answer then 1 else 0)
  /\ count_alert (effects r) = (if login_granted answer then 0 else 1).
Proof.
  intros r. subst r.
  destruct answer as [e | [okb [e | [d [t |]]]]]; try destruct okb;
    try (repeat split; auto; fail).
  change (FetchResolves (mkResponse true (JsonBody (mkAuthBody d (Some t)))))
    with (granted d t).
  rewrite handleSubmit_granted, resolveDestination_run.
  destruct (is_not_root _ && includes _ _); repeat split; auto.
Qed.

(** Over object bodies the parsed handler is the handler. *)
Lemma login_parsed_of_object
    (f : state_from) (answer : fetch_result auth_body) (s : State) :
  run (handleSubmit_parsed f (Json.of_object answer)) s
  = run (handleSubmit f answer) s.
Proof.
  destruct answer as [e | [okb [e | [d [t |]]]]]; try destruct okb; reflexivity.
Qed.

(** X18. Which alert a failed login shows.  A lost connection, a body
    that is not JSON, a body that is [null] whatever the status, and a
    2xx body without a token all end in the [catch] block and show its
    fixed text.  A non-2xx answer whose body is not [null] shows the
    [detail] of the body as it is, [undefined] if there is none, and
    ignores any token in it. *)
Theorem login_alert_text (f : state_from) (s : State) :
  let sent := Fetch (auth_request (formValues s)) in
  let fixed := AddAlert (VString authentication_error) in
  (forall e,
      run (handleSubmit_parsed f (FetchRejects e)) s
      = (Normal tt, (s, [sent; fixed])))
  /\ (forall okb e,
        run (handleSubmit_parsed f (FetchResolves (mkResponse okb (JsonFails e)))) s
        = (Normal tt, (s, [sent; fixed])))
  /\ (forall okb,
        run (handleSubmit_parsed f (FetchResolves (mkResponse okb (JsonBody None)))) s
        = (Normal tt, (s, [sent; fixed])))
  /\ (forall d,
        run (handleSubmit_parsed f
               (FetchResolves (mkResponse true (JsonBody (Some (mkAuthBody d None)))))) s
        = (Normal tt, (s, [sent; fixed])))
  /\ (forall d tok,
        run (handleSubmit_parsed f
               (FetchResolves (mkResponse false (JsonBody (Some (mkAuthBody d tok)))))) s
        = (Returned, (s, [sent; AddAlert d]))).
Proof.
  intros sent fixed. subst sent fixed.
  repeat split; intros; try reflexivity.
  destruct okb; reflexivity.
Qed.

(** X19. The token handed to [setToken] is the token of the body with
    every double quote taken out and nothing else changed; a token
    without quotes is stored as it came. *)
Theorem stored_token_has_no_quotes
    (f : state_from) (d : jsval) (t : string) (s : State) :
  exists t' rest,
    effects (run (handleSubmit f (granted d t)) s)
    = Fetch (auth_request (formValues s)) :: SetToken t' :: rest
    /\ chars t' = filter (fun c => negb (Ascii.eqb c dquote)) (chars t)
    /\ ~ In dquote (chars t')
    /\ (~ In dquote (chars t) -> t' = t).
Proof.
  rewrite handleSubmit_granted, resolveDestination_run.
  exists (strip_dquotes t). eexists.
  split; [reflexivity |].
  split; [apply strip_dquotes_chars |].
  split.
  - rewrite strip_dquotes_chars. intros I. apply filter_In in I.
    destruct I as [_ I]. now rewrite Ascii.eqb_refl in I.
  - apply strip_dquotes_clean.
Qed.

Lemma stored_token_has_no_quotes_witness :
  exists t' rest,
    effects (run (handleSubmit NoFrom (granted VUndefined "eyJhbGciOiJIUzI1NiJ9")) initialState)
    = Fetch (auth_request (formValues initialState)) :: SetToken t' :: rest
    /\ t' = "eyJhbGciOiJIUzI1NiJ9".
Proof.
  destruct (stored_token_has_no_quotes NoFrom VUndefined "eyJhbGciOiJIUzI1NiJ9"
              initialState) as (t' & rest & E & _ & _ & Same).
  exists t', rest. split; [exact E |].
  apply Same. vm_compute. intros I.
  repeat (destruct I as [N | I]; [discriminate N |]). exact I.
Defined.

(** X20. For an origin that is a location with a pathname, the redirect
    is forced to [/] exactly when [/reset-password] occurs somewhere in
    the pathname, at its start or deeper. *)
Theorem forced_to_root_iff_reset_password_inside
    (l : Location) (p : string) (d : jsval) (t : string) (s : State) :
  pathname l = Some p ->
  (In (Navigate (ToPath "/") false)
      (effects (run (handleSubmit (FromLocation l) (granted d t)) s))
   <-> exists pre post, p = pre ++ "/reset-password" ++ post).
Proof.
  intros Path.
  rewrite handleSubmit_granted, resolveDestination_run.
  rewrite <- (includes_iff p "/reset-password").
  simpl. rewrite Path. simpl.
  change reset_password_segment with "/reset-password".
  destruct (includes p "/reset-password"); simpl; split; auto.
  - intros I. repeat (destruct I as [N | I]; [discriminate N |]). contradiction.
  - discriminate.
Qed.

(** A page that only has the segment further down its path. *)
Lemma forced_to_root_iff_reset_password_inside_witness :
  In (Navigate (ToPath "/") false)
     (effects (run (handleSubmit
                      (FromLocation (mkLocation (Some "/ayuda/reset-password-info") "" ""))
                      (granted VUndefined "abc123")) initialState)).
Proof.
  apply (proj2 (forced_to_root_iff_reset_password_inside
                  (mkLocation (Some "/ayuda/reset-password-info") "" "")
                  "/ayuda/reset-password-info" VUndefined "abc123" initialState
                  eq_refl)).
  exists "/ayuda", "-info". reflexivity.
Defined.

(** X21. The test reads [pathname] and nothing else.  An origin recorded
    as a plain string goes back to that string with [replace: true]
    whatever it contains, and so does a location object without a
    pathname; the empty string counts as no origin and leads to [/]. *)
Theorem origin_without_pathname_is_restored (d : jsval) (t : string) (s : State) :
  (forall p,
      p <> "" ->
      effects (run (handleSubmit (FromPath p) (granted d t)) s)
      = [ Fetch (auth_request (formValues s));
          SetToken (strip_dquotes t);
          ConsoleLog "from" (ToPath p);
          Navigate (ToPath p) true ])
  /\ (forall search hash,
        effects (run (handleSubmit (FromLocation (mkLocation None search hash))
                        (granted d t)) s)
        = [ Fetch (auth_request (formValues s));
            SetToken (strip_dquotes t);
            ConsoleLog "from" (ToLocation (mkLocation None search hash));
            Navigate (ToLocation (mkLocation None search hash)) true ])
  /\ effects (run (handleSubmit (FromPath "") (granted d t)) s)
     = [ Fetch (auth_request (formValues s));
         SetToken (strip_dquotes t);
         ConsoleLog "from" (ToPath "/");
         Navigate (ToPath "/") true ].
Proof.
  split; [| split].
  - intros p Nonempty.
    rewrite handleSubmit_granted, resolveDestination_run.
    apply String.eqb_neq in Nonempty.
    unfold from_or_root. rewrite Nonempty.
    change (includes (to_string (pathname_of (ToPath p))) reset_password_segment)
      with false.
    now rewrite andb_false_r.
  - intros search hash.
    now rewrite handleSubmit_granted, resolveDestination_run.
  - now rewrite handleSubmit_granted, resolveDestination_run.
Qed.

(** The reset page recorded as a string is gone back to. *)
Lemma origin_without_pathname_is_restored_witness :
  effects (run (handleSubmit (FromPath "/reset-password/abc")
                  (granted VUndefined "abc123")) initialState)
  = [ Fetch (auth_request (formValues initialState));
      SetToken "abc123";
      ConsoleLog "from" (ToPath "/reset-password/abc");
      Navigate (ToPath "/reset-password/abc") true ].
Proof.
  apply (proj1 (origin_without_pathname_is_restored VUndefined "abc123" initialState)).
  discriminate.
Defined.

(** X22. The admin-email request never looks at the status.  Whatever
    the status, a body that is not [null] sets the cell to its
    [admin_email], [undefined] if it has none.  A lost connection, a body
    that is not JSON and a [null] body are written to the console and
    nothing else: the cell as it was, nothing thrown.  No alert on any
    answer. *)
Theorem admin_email_ignores_status (cell : jsval) :
  (forall okb b,
      Mount.run (fetchAdminEmail (FetchResolves (mkResponse okb (JsonBody (Some b))))) cell
      = (Normal tt, (admin_email b, [Mount.Get ADMIN_MAIL None])))
  /\ (forall e,
        Mount.run (fetchAdminEmail (FetchRejects e)) cell
        = (Normal tt,
           (cell, [ Mount.Get ADMIN_MAIL None;
                    Mount.ConsoleError "Error fetching admin email:" e ])))
  /\ (forall okb e,
        Mount.run (fetchAdminEmail (FetchResolves (mkResponse okb (JsonFails e)))) cell
        = (Normal tt,
           (cell, [ Mount.Get ADMIN_MAIL None;
                    Mount.ConsoleError "Error fetching admin email:" e ])))
  /\ (forall okb,
        Mount.run (fetchAdminEmail (FetchResolves (mkResponse okb (JsonBody None)))) cell
        = (Normal tt,
           (cell, [ Mount.Get ADMIN_MAIL None;
                    Mount.ConsoleError "Error fetching admin email:"
                      (Json.null_property_error "admin_email") ])))
  /\ (forall answer m,
        ~ In (Mount.Alert m) (Mount.log (Mount.run (fetchAdminEmail answer) cell))).
Proof.
  repeat split.
  intros answer m I.
  destruct answer as [e | [okb [e | [b |]]]]; simpl in I;
    repeat (destruct I as [N | I]; [discriminate N |]); exact I.
Qed.

End LoginPageProofs.
